(** * FileShare (src/App.tsx): the share registry and its code generator

    A shallow embedding of the React component [App]: its state, its event
    handlers, the code generator [generateCode] with the double-precision
    arithmetic it performs, and the properties of the registry
    ([fileShares : Map<string, FileShare>]) that the specification states. *)

From stdpp Require Import gmap strings list fin_maps.
From Stdlib Require Import ZArith Lia Ascii.

(** ** Double-precision arithmetic

    [Math.floor(1000 + Math.random() * 9000)] is computed on IEEE-754
    binary64 numbers with round-to-nearest, ties-to-even.  Every number that
    occurs is non-negative and below 2^14, so a double is represented here by
    the integer count of units of 2^-1074 (the smallest subnormal) that it
    holds: each finite non-negative double is such a count, and the counts
    that are doubles are the ones with at most 53 significant bits. *)
Module Double.
Local Open Scope Z_scope.

(** The double 1.0, in units of 2^-1074. *)
Definition one : Z := Z.shiftl 1 1074.

(** The double whose value is the integer [n]. *)
Definition of_int (n : Z) : Z := Z.shiftl n 1074.

(** Rounding of an exact non-negative result to 53 significant bits, to
    nearest, ties to even: the bits below the 53 leading ones are cut off,
    and the last bit kept is incremented when they are more than half of
    it, or exactly half and it is odd.  Overflow to infinity needs 2098
    bits and is out of reach of the program's operands. *)
Definition round53 (N : Z) : Z :=
  if N <? 2 ^ 53 then N
  else
    let s := Z.log2 N - 52 in
    let q := Z.shiftr N s in
    let r := Z.land N (Z.ones s) in
    let half := Z.shiftl 1 (s - 1) in
    if (half <? r) || ((r =? half) && Z.odd q)
    then Z.shiftl (q + 1) s
    else Z.shiftl q s.

(** [x * n] for a double [x] and an integer-valued double [n]. *)
Definition mul_int (x n : Z) : Z := round53 (x * n).

(** [x + y] on doubles. *)
Definition add (x y : Z) : Z := round53 (x + y).

(** [Math.floor(x)], as an integer. *)
Definition floor (x : Z) : Z := Z.shiftr x 1074.

(** The results [Math.random()] may return: doubles in [0, 1). *)
Definition is_unit_double (M : Z) : bool :=
  (0 <=? M) && (M <? one) && (round53 M =? M).

Definition unit_double : Type := { M : Z | is_unit_double M = true }.

Definition units (r : unit_double) : Z := proj1_sig r.

Definition zero : unit_double := exist _ 0 eq_refl.

(** The unit double with [M] units, or [0.0] when [M] units is not one. *)
Definition unit_double_of (M : Z) : unit_double :=
  match is_unit_double M as b return is_unit_double M = b → unit_double with
  | true => λ H, exist _ M H
  | false => λ _, zero
  end eq_refl.

End Double.

(** ** Strings

    JavaScript strings are modelled by [string]; the characters the program
    inspects are the decimal digits. *)

Definition is_digit (c : ascii) : bool :=
  (48 <=? nat_of_ascii c)%nat && (nat_of_ascii c <=? 57)%nat.

(** [s.replace(/\D/g, '')]: every character that is not a digit is dropped. *)
Fixpoint replace_nondigits (s : string) : string :=
  match s with
  | EmptyString => EmptyString
  | String c s' =>
      if is_digit c then String c (replace_nondigits s') else replace_nondigits s'
  end.

(** [s.slice(b, e)] for [0 <= b <= e]. *)
Definition slice (b e : nat) (s : string) : string := String.substring b (e - b) s.

Fixpoint all_digits (s : string) : bool :=
  match s with
  | EmptyString => true
  | String c s' => is_digit c && all_digits s'
  end.

Definition digit_char (d : Z) : ascii := ascii_of_nat (Z.to_nat (48 + d)).

Fixpoint digits (fuel : nat) (n : Z) (acc : string) : string :=
  match fuel with
  | O => acc
  | S fuel' =>
      let acc' := String (digit_char (n mod 10)) acc in
      if (n / 10 =? 0)%Z then acc' else digits fuel' (n / 10)%Z acc'
  end.

(** [n.toString()] for a number [n] that is a non-negative integer below
    10^21: its decimal digits, most significant first, no leading zero. *)
Definition toString (n : Z) : string := digits (S (Z.to_nat (Z.log2 n))) n "".

(** The number a string of decimal digits denotes. *)
Fixpoint decimal_value (acc : Z) (s : string) : Z :=
  match s with
  | EmptyString => acc
  | String c s' => decimal_value (10 * acc + (Z.of_nat (nat_of_ascii c) - 48))%Z s'
  end.

(** ** The component's data *)

Module File.
(** The browser's [File]: the fields the program reads, and its bytes. *)
Record t : Type := { name : string; size : Z; bytes : list Byte.byte }.
End File.

Record FileShare : Type := { code : string; file : File.t; url : string }.

Inductive View : Type := upload | download.

Record AppState : Type := {
  view : View;
  fileShares : gmap string FileShare;
  uploadedCode : string;
  downloadCode : string;
  error : string;
  copied : bool;
  isDragging : bool
}.

Definition setView (v : View) (s : AppState) : AppState :=
  {| view := v; fileShares := fileShares s; uploadedCode := uploadedCode s;
     downloadCode := downloadCode s; error := error s; copied := copied s;
     isDragging := isDragging s |}.

Definition setFileShares (m : gmap string FileShare) (s : AppState) : AppState :=
  {| view := view s; fileShares := m; uploadedCode := uploadedCode s;
     downloadCode := downloadCode s; error := error s; copied := copied s;
     isDragging := isDragging s |}.

Definition setUploadedCode (c : string) (s : AppState) : AppState :=
  {| view := view s; fileShares := fileShares s; uploadedCode := c;
     downloadCode := downloadCode s; error := error s; copied := copied s;
     isDragging := isDragging s |}.

Definition setDownloadCode (c : string) (s : AppState) : AppState :=
  {| view := view s; fileShares := fileShares s; uploadedCode := uploadedCode s;
     downloadCode := c; error := error s; copied := copied s;
     isDragging := isDragging s |}.

Definition setError (msg : string) (s : AppState) : AppState :=
  {| view := view s; fileShares := fileShares s; uploadedCode := uploadedCode s;
     downloadCode := downloadCode s; error := msg; copied := copied s;
     isDragging := isDragging s |}.

Definition setCopied (b : bool) (s : AppState) : AppState :=
  {| view := view s; fileShares := fileShares s; uploadedCode := uploadedCode s;
     downloadCode := downloadCode s; error := error s; copied := b;
     isDragging := isDragging s |}.

Definition setIsDragging (b : bool) (s : AppState) : AppState :=
  {| view := view s; fileShares := fileShares s; uploadedCode := uploadedCode s;
     downloadCode := downloadCode s; error := error s; copied := copied s;
     isDragging := b |}.

(** [Map.prototype.has], [get] and [set] on the registry.  [set] updates the
    map object in place and returns it; [new Map(fileShares.set(..))] copies
    that object, and the copy, which holds the same entries, becomes the
    state. *)
Definition Map_has (m : gmap string FileShare) (k : string) : bool :=
  bool_decide (is_Some (m !! k)).

Definition Map_get (m : gmap string FileShare) (k : string) : option FileShare :=
  m !! k.

Definition Map_set (m : gmap string FileShare) (k : string) (v : FileShare)
  : gmap string FileShare := <[k := v]> m.

(** What lies outside the component: how often [Math.random] and
    [URL.createObjectURL] were called, the downloads started (anchor [href]
    and [download] name), the clipboard, the pending [setTimeout] callbacks;
    and, as a ghost record, every key handed to [fileShares.get]. *)
Record World : Type := {
  app : AppState;
  randomCalls : nat;
  objectURLs : nat;
  clicked : list (string * string);
  clipboard : option string;
  timers : nat;
  lookups : list string
}.

Definition with_app (f : AppState → AppState) (w : World) : World :=
  {| app := f (app w); randomCalls := randomCalls w; objectURLs := objectURLs w;
     clicked := clicked w; clipboard := clipboard w; timers := timers w;
     lookups := lookups w |}.

Definition invalid_code : string := "Invalid code. Please check and try again.".

(** The state of the first render. *)
Definition init : World :=
  {| app := {| view := upload; fileShares := ∅; uploadedCode := "";
               downloadCode := ""; error := ""; copied := false;
               isDragging := false |};
     randomCalls := 0; objectURLs := 0; clicked := []; clipboard := None;
     timers := 0; lookups := [] |}.

(** What the user and the browser can do to the page. *)
Inductive Event : Type :=
  | ClickUploadTab
  | ClickDownloadTab
  | SelectFile (f : option File.t)
  | DragOver
  | DragLeave
  | Drop (f : option File.t)
  | ClickCopy
  | CopyTimeout
  | ClickUploadAnother
  | TypeCode (value : string)
  | ClickDownload.

(** Whether the element that receives the event is on the page, and enabled. *)
Definition enabled (w : World) (e : Event) : bool :=
  let s := app w in
  match e with
  | ClickUploadTab | ClickDownloadTab => true
  | SelectFile _ | DragOver | DragLeave | Drop _ =>
      match view s with
      | upload => bool_decide (uploadedCode s = "")
      | download => false
      end
  | ClickCopy | ClickUploadAnother =>
      match view s with
      | upload => negb (bool_decide (uploadedCode s = ""))
      | download => false
      end
  | TypeCode _ =>
      match view s with upload => false | download => true end
  | ClickDownload =>
      match view s with
      | upload => false
      | download => negb (bool_decide (String.length (downloadCode s) ≠ 4))
      end
  | CopyTimeout => negb (timers w =? 0)%nat
  end.

(** The keys a render hands to [fileShares.get]: the file name and the file
    size shown beside the share code. *)
Definition render_lookups (s : AppState) : list string :=
  match view s with
  | upload =>
      if bool_decide (uploadedCode s = "") then []
      else [uploadedCode s; uploadedCode s]
  | download => []
  end.

Definition render (w : World) : World :=
  {| app := app w; randomCalls := randomCalls w; objectURLs := objectURLs w;
     clicked := clicked w; clipboard := clipboard w; timers := timers w;
     lookups := lookups w ++ render_lookups (app w) |}.

Section App.

(** [random k] is the result of the [k]-th call of [Math.random()], and
    [createObjectURL k f] that of the [k]-th call of [URL.createObjectURL],
    made on [f]. *)
Variable random : nat → Double.unit_double.
Variable createObjectURL : nat → File.t → string.

(** [Math.floor(1000 + r * 9000)] *)
Definition draw (r : Double.unit_double) : Z :=
  Double.floor
    (Double.add (Double.of_int 1000) (Double.mul_int (Double.units r) 9000)).

(** [generateCode], with [k] calls of [Math.random] made before; the result
    carries the number of calls made after.  [None]: the loop is still
    running after [fuel] iterations. *)
Fixpoint generateCode (fuel : nat) (fileShares : gmap string FileShare) (k : nat)
  : option (string * nat) :=
  match fuel with
  | O => None
  | S fuel' =>
      let code := toString (draw (random k)) in
      if Map_has fileShares code
      then generateCode fuel' fileShares (S k)
      else Some (code, S k)
  end.

Definition handleFileUpload (fuel : nat) (file : option File.t) (w : World)
  : option World :=
  match file with
  | None => Some w
  | Some f =>
      match generateCode fuel (fileShares (app w)) (randomCalls w) with
      | None => None
      | Some (code, k) =>
          let url := createObjectURL (objectURLs w) f in
          let newShare := {| code := code; file := f; url := url |} in
          Some
            {| app :=
                 setError ""
                   (setUploadedCode code
                      (setFileShares
                         (Map_set (fileShares (app w)) code newShare) (app w)));
               randomCalls := k;
               objectURLs := S (objectURLs w);
               clicked := clicked w; clipboard := clipboard w;
               timers := timers w; lookups := lookups w |}
      end
  end.

Definition handleFileSelect (fuel : nat) (file : option File.t) (w : World)
  : option World :=
  match file with
  | Some f => handleFileUpload fuel (Some f) w
  | None => Some w
  end.

Definition handleDragOver (w : World) : World := with_app (setIsDragging true) w.

Definition handleDragLeave (w : World) : World := with_app (setIsDragging false) w.

Definition handleDrop (fuel : nat) (file : option File.t) (w : World)
  : option World :=
  let w1 := with_app (setIsDragging false) w in
  match file with
  | Some f => handleFileUpload fuel (Some f) w1
  | None => Some w1
  end.

Definition handleDownload (w : World) : World :=
  let s := app w in
  let looked := lookups w ++ [downloadCode s] in
  match Map_get (fileShares s) (downloadCode s) with
  | None =>
      {| app := setError invalid_code s;
         randomCalls := randomCalls w; objectURLs := objectURLs w;
         clicked := clicked w; clipboard := clipboard w; timers := timers w;
         lookups := looked |}
  | Some share =>
      {| app := setDownloadCode "" (setError "" s);
         randomCalls := randomCalls w; objectURLs := objectURLs w;
         clicked := clicked w ++ [(url share, File.name (file share))];
         clipboard := clipboard w; timers := timers w;
         lookups := looked |}
  end.

Definition copyCode (w : World) : World :=
  {| app := setCopied true (app w);
     randomCalls := randomCalls w; objectURLs := objectURLs w;
     clicked := clicked w; clipboard := Some (uploadedCode (app w));
     timers := S (timers w); lookups := lookups w |}.

(** The callback [() => setCopied(false)] of a pending timeout. *)
Definition copyTimeout (w : World) : World :=
  {| app := setCopied false (app w);
     randomCalls := randomCalls w; objectURLs := objectURLs w;
     clicked := clicked w; clipboard := clipboard w;
     timers := pred (timers w); lookups := lookups w |}.

(** The [onChange] of the code field, on [e.target.value]. *)
Definition onChangeCode (value : string) (w : World) : World :=
  let value' := slice 0 4 (replace_nondigits value) in
  with_app (λ s, setError "" (setDownloadCode value' s)) w.

Definition handle (fuel : nat) (e : Event) (w : World) : option World :=
  match e with
  | ClickUploadTab =>
      Some (with_app (λ s, setUploadedCode "" (setError "" (setView upload s))) w)
  | ClickDownloadTab =>
      Some (with_app (λ s, setDownloadCode "" (setError "" (setView download s))) w)
  | SelectFile f => handleFileSelect fuel f w
  | DragOver => Some (handleDragOver w)
  | DragLeave => Some (handleDragLeave w)
  | Drop f => handleDrop fuel f w
  | ClickCopy => Some (copyCode w)
  | CopyTimeout => Some (copyTimeout w)
  | ClickUploadAnother => Some (with_app (setUploadedCode "") w)
  | TypeCode value => Some (onChangeCode value w)
  | ClickDownload => Some (handleDownload w)
  end.

(** One event: its handler, then the render that follows.  A render is
    counted after every handler, also one that changed nothing: the keys it
    looks up are the same.  An event whose element is absent or disabled
    does not occur. *)
Definition step (fuel : nat) (w : World) (e : Event) : option World :=
  if enabled w e then render <$> handle fuel e w else Some w.

(** Whether the event assigns a code: an upload of a file. *)
Definition assigns (w : World) (e : Event) : bool :=
  enabled w e &&
  match e with
  | SelectFile (Some _) | Drop (Some _) => true
  | _ => false
  end.

(** A session: the events in order, with the codes assigned on the way. *)
Fixpoint run (fuel : nat) (w : World) (es : list Event)
  : option (World * list string) :=
  match es with
  | [] => Some (w, [])
  | e :: es' =>
      match step fuel w e with
      | None => None
      | Some w1 =>
          match run fuel w1 es' with
          | None => None
          | Some (w2, cs) =>
              Some (w2, if assigns w e then uploadedCode (app w1) :: cs else cs)
          end
      end
  end.

End App.

(** A share code: four characters, each a decimal digit. *)
Definition is_code (c : string) : Prop :=
  String.length c = 4 ∧ all_digits c = true.

(** What holds of the page after every event. *)
Record Inv (w : World) : Prop := {
  inv_uploaded : uploadedCode (app w) = "" ∨ is_code (uploadedCode (app w));
  inv_download :
    all_digits (downloadCode (app w)) = true ∧
    String.length (downloadCode (app w)) ≤ 4;
  inv_lookups : Forall is_code (lookups w);
  inv_error : error (app w) = "" ∨ error (app w) = invalid_code
}.


(** The codes [generateCode] draws from: the decimal forms of 1000 .. 9999. *)
Definition in_keyspace (c : string) : Prop :=
  ∃ n, (1000 ≤ n ≤ 9999)%Z ∧ c = toString n.

Definition keyspace : gset string := list_to_set (toString <$> seqZ 1000 9000).

(** What holds of the entries, the code shown, the clipboard and the
    "copied" mark after every event of a session. *)
Record Consistent (createObjectURL : nat → File.t → string) (w : World)
  : Prop := {
  entry_ok :
    ∀ k share,
      fileShares (app w) !! k = Some share →
      code share = k ∧ in_keyspace k ∧
      ∃ j, j < objectURLs w ∧ url share = createObjectURL j (file share);
  shown_ok :
    uploadedCode (app w) = "" ∨
    is_Some (fileShares (app w) !! uploadedCode (app w));
  clipboard_ok :
    ∀ c, clipboard w = Some c → is_Some (fileShares (app w) !! c);
  copied_ok : copied (app w) = true → 0 < timers w
}.

Arguments toString : simpl never.
Arguments draw : simpl never.

(** ** Concrete sessions *)
Module Example.

Definition notes : File.t :=
  {| File.name := "notes.txt"; File.size := 5;
     File.bytes := [Byte.x68; Byte.x65; Byte.x6c; Byte.x6c; Byte.x6f] |}.

Definition photo : File.t :=
  {| File.name := "photo.png"; File.size := 3;
     File.bytes := [Byte.x89; Byte.x50; Byte.x4e] |}.

(** Object URLs numbered by the call that made them. *)
Definition blob_url (k : nat) (f : File.t) : string :=
  "blob:" +:+ toString (Z.of_nat k).

(** The double [m / 2^40], where [m] is the least integer with
    [i < m * 9000 / 2^40]: the draw made from it is [1000 + i]. *)
Definition bucket (i : Z) : Double.unit_double :=
  Double.unit_double_of (Z.shiftl (i * 2 ^ 40 / 9000 + 1) 1034).

(** A source that goes through the 9000 codes in order, again and again. *)
Definition sweep (j : nat) : Double.unit_double :=
  bucket (Z.of_nat j mod 9000).

(** A source that yields each code of [sweep] twice in a row. *)
Definition twice (j : nat) : Double.unit_double := sweep (j / 2).

(** A source that yields [0.0] at every call. *)
Definition stuck (j : nat) : Double.unit_double := Double.zero.

Definition share_1000 : FileShare :=
  {| code := "1000"; file := notes; url := "blob:0" |}.

(** Select a file, ask for another upload, drop a second file, then go to
    the download tab, type the first code with stray characters and
    download. *)
Definition session : list Event :=
  [ SelectFile (Some notes); ClickCopy; ClickUploadAnother; DragOver;
    Drop (Some photo); ClickDownloadTab; TypeCode "1x0-00"; ClickDownload;
    TypeCode "77"; ClickDownload; TypeCode "4711"; ClickDownload ].

End Example.

(** ** Facts about the double-precision operations *)
Module DoubleFacts.
Import Double.
Local Open Scope Z_scope.

Lemma round53_small N : N < 2 ^ 53 → round53 N = N.
Proof.
  intros H. unfold round53.
  destruct (Z.ltb_spec N (2 ^ 53)) as [_|Hge]; [reflexivity | lia].
Qed.

(** The arithmetic reading of the bit operations of [round53]. *)
Lemma round53_large N :
  2 ^ 53 ≤ N →
  let s := Z.log2 N - 52 in
  let q := N / 2 ^ s in
  let r := N mod 2 ^ s in
  1 ≤ s ∧ 2 ^ 52 ≤ q < 2 ^ 53 ∧
  round53 N =
    (q + if (2 ^ (s - 1) <? r) || ((r =? 2 ^ (s - 1)) && Z.odd q) then 1 else 0)
    * 2 ^ s.
Proof.
  intros HN s q r.
  assert (Hpos : 0 < N) by (pose proof (Z.pow_pos_nonneg 2 53); lia).
  assert (Hlog : 53 ≤ Z.log2 N).
  { apply Z.log2_le_pow2; [lia|]. exact HN. }
  assert (Hs : 1 ≤ s) by (unfold s; lia).
  pose proof (Z.log2_spec N Hpos) as [Hlo Hhi].
  assert (HP : 0 < 2 ^ s) by (apply Z.pow_pos_nonneg; lia).
  assert (E1 : 2 ^ Z.log2 N = 2 ^ 52 * 2 ^ s).
  { rewrite <- Z.pow_add_r by lia. f_equal. unfold s. lia. }
  assert (E2 : 2 ^ Z.succ (Z.log2 N) = 2 ^ 53 * 2 ^ s).
  { rewrite <- Z.pow_add_r by lia. f_equal. unfold s. lia. }
  split; [exact Hs|]. split.
  - split.
    + apply Z.div_le_lower_bound; [exact HP|]. rewrite Z.mul_comm, <- E1. exact Hlo.
    + apply Z.div_lt_upper_bound; [exact HP|]. rewrite Z.mul_comm, <- E2. exact Hhi.
  - unfold round53.
    destruct (Z.ltb_spec N (2 ^ 53)) as [Hlt|_]; [lia|].
    fold s. cbv zeta.
    rewrite Z.land_ones by lia.
    rewrite !Z.shiftr_div_pow2 by lia.
    rewrite (Z.shiftl_mul_pow2 1 (s - 1)) by lia.
    rewrite Z.mul_1_l. fold q r.
    destruct ((2 ^ (s - 1) <? r) || ((r =? 2 ^ (s - 1)) && Z.odd q));
      rewrite Z.shiftl_mul_pow2 by lia; f_equal; lia.
Qed.

Lemma round53_bounds N :
  2 ^ 53 ≤ N → 2 ^ Z.log2 N ≤ round53 N ≤ 2 ^ (Z.log2 N + 1).
Proof.
  intros HN. destruct (round53_large N HN) as (Hs & Hq & ->).
  set (s := Z.log2 N - 52) in *. set (q := N / 2 ^ s) in *.
  assert (HP : 0 < 2 ^ s) by (apply Z.pow_pos_nonneg; lia).
  replace (Z.log2 N) with (52 + s) by (unfold s; lia).
  replace (52 + s + 1) with (53 + s) by lia.
  rewrite !Z.pow_add_r by lia.
  destruct (_ || _); split; nia.
Qed.

Lemma round53_mono N1 N2 : N1 ≤ N2 → round53 N1 ≤ round53 N2.
Proof.
  intros Hle.
  destruct (Z.lt_ge_cases N2 (2 ^ 53)) as [H2|H2].
  { rewrite !round53_small by lia. exact Hle. }
  destruct (Z.lt_ge_cases N1 (2 ^ 53)) as [H1|H1].
  { rewrite (round53_small N1) by exact H1.
    pose proof (round53_bounds N2 H2) as [Hlo _].
    assert (2 ^ 53 ≤ 2 ^ Z.log2 N2).
    { apply Z.pow_le_mono_r; [lia|]. apply Z.log2_le_pow2; lia. }
    lia. }
  assert (Hlog : Z.log2 N1 ≤ Z.log2 N2) by (apply Z.log2_le_mono; exact Hle).
  destruct (Z.eq_dec (Z.log2 N1) (Z.log2 N2)) as [He|Hne].
  - destruct (round53_large N1 H1) as (Hs & Hq1 & ->).
    destruct (round53_large N2 H2) as (_ & Hq2 & ->).
    rewrite <- He.
    set (s := Z.log2 N1 - 52) in *.
    assert (HP : 0 < 2 ^ s) by (apply Z.pow_pos_nonneg; lia).
    assert (Hh : 2 * 2 ^ (s - 1) = 2 ^ s).
    { rewrite <- Z.pow_succ_r by lia. f_equal. lia. }
    pose proof (Z.div_mod N1 (2 ^ s) ltac:(lia)) as D1.
    pose proof (Z.div_mod N2 (2 ^ s) ltac:(lia)) as D2.
    pose proof (Z.mod_pos_bound N1 (2 ^ s) HP) as B1.
    pose proof (Z.mod_pos_bound N2 (2 ^ s) HP) as B2.
    set (q1 := N1 / 2 ^ s) in *. set (q2 := N2 / 2 ^ s) in *.
    set (r1 := N1 mod 2 ^ s) in *. set (r2 := N2 mod 2 ^ s) in *.
    set (h := 2 ^ (s - 1)) in *. set (P := 2 ^ s) in *.
    assert (Hq : q1 ≤ q2) by nia.
    apply Z.mul_le_mono_nonneg_r; [lia|].
    destruct (Z.eq_dec q1 q2) as [Eq|Nq].
    + rewrite <- Eq in *. assert (r1 ≤ r2) by lia.
      destruct (Z.ltb_spec h r1), (Z.ltb_spec h r2), (Z.eqb_spec r1 h),
        (Z.eqb_spec r2 h), (Z.odd q1); simpl; lia.
    + destruct (_ || _), (_ || _); lia.
  - pose proof (round53_bounds N1 H1) as [_ Hhi].
    pose proof (round53_bounds N2 H2) as [Hlo _].
    assert (2 ^ (Z.log2 N1 + 1) ≤ 2 ^ Z.log2 N2).
    { apply Z.pow_le_mono_r; lia. }
    lia.
Qed.

Lemma floor_mono x y : x ≤ y → floor x ≤ floor y.
Proof.
  intros H. unfold floor. rewrite !Z.shiftr_div_pow2 by lia.
  apply Z.div_le_mono; [|exact H]. apply Z.pow_pos_nonneg; lia.
Qed.

(** The largest double below 1.0 is 1 - 2^-53. *)
Lemma unit_double_bounds M :
  is_unit_double M = true → 0 ≤ M ≤ one - Z.shiftl 1 1021.
Proof.
  unfold is_unit_double. intros H.
  apply andb_prop in H as [H Hfix]. apply andb_prop in H as [H0 H1].
  apply Z.leb_le in H0. apply Z.ltb_lt in H1. apply Z.eqb_eq in Hfix.
  split; [exact H0|].
  unfold one in *. rewrite !Z.shiftl_mul_pow2, !Z.mul_1_l in * by lia.
  assert (E : 2 ^ 1074 = 2 ^ 53 * 2 ^ 1021) by (rewrite <- Z.pow_add_r by lia; reflexivity).
  assert (E' : 2 ^ 1073 = 2 ^ 52 * 2 ^ 1021) by (rewrite <- Z.pow_add_r by lia; reflexivity).
  assert (HP : 0 < 2 ^ 1021) by (apply Z.pow_pos_nonneg; lia).
  set (P := 2 ^ 1021) in *.
  destruct (Z.lt_ge_cases M (2 ^ 1073)) as [Hlt|Hge]; [nia|].
  assert (H53 : 2 ^ 53 ≤ M) by nia.
  assert (Hlog : Z.log2 M = 1073).
  { apply Z.log2_unique; [lia|]. replace (1073 + 1) with 1074 by lia. lia. }
  destruct (round53_large M H53) as (_ & _ & Hr).
  rewrite Hfix, Hlog in Hr. change (1073 - 52) with 1021 in Hr. fold P in Hr.
  set (k := _ + _) in Hr. clearbody k. nia.
Qed.

Lemma round53_nonneg N : 0 ≤ N → 0 ≤ round53 N.
Proof. intros H. apply (round53_mono 0 N H). Qed.

(** [Math.random() * 9000] is at most the double next below 9000. *)
Lemma mul_9000_bounds M :
  is_unit_double M = true →
  0 ≤ mul_int M 9000 ≤ of_int 9000 - Z.shiftl 1 1035.
Proof.
  intros H. apply unit_double_bounds in H as [H0 H1]. unfold mul_int. split.
  - apply round53_nonneg. lia.
  - transitivity (round53 ((one - Z.shiftl 1 1021) * 9000)).
    + apply round53_mono. lia.
    + apply Z.leb_le. vm_compute. reflexivity.
Qed.

(** [1000 + y] for a double [y] between 0 and the double next below 9000
    lies between 1000 and the double next below 10000. *)
Lemma add_1000_bounds y :
  0 ≤ y ≤ of_int 9000 - Z.shiftl 1 1035 →
  of_int 1000 ≤ add (of_int 1000) y ≤ of_int 10000 - Z.shiftl 1 1035.
Proof.
  intros [H0 H1]. unfold add. split.
  - transitivity (round53 (of_int 1000)).
    + apply Z.leb_le. vm_compute. reflexivity.
    + apply round53_mono. lia.
  - transitivity (round53 (of_int 1000 + (of_int 9000 - Z.shiftl 1 1035))).
    + apply round53_mono. lia.
    + apply Z.leb_le. vm_compute. reflexivity.
Qed.
(** A number with at most 53 significant bits is a double: rounding leaves
    it as it is. *)
Lemma round53_exact m e :
  0 ≤ m < 2 ^ 53 → 0 ≤ e → round53 (m * 2 ^ e) = m * 2 ^ e.
Proof.
  intros Hm He.
  destruct (Z.lt_ge_cases (m * 2 ^ e) (2 ^ 53)) as [Hs|Hl].
  { apply round53_small. exact Hs. }
  assert (HE : 0 < 2 ^ e) by (apply Z.pow_pos_nonneg; lia).
  assert (Hm0 : 0 < m) by nia.
  destruct (round53_large _ Hl) as (Hs & Hq & ->).
  assert (Hlog : Z.log2 (m * 2 ^ e) = Z.log2 m + e).
  { rewrite <- Z.shiftl_mul_pow2 by lia. apply Z.log2_shiftl; lia. }
  rewrite Hlog in *.
  assert (Hlm : Z.log2 m < 53) by (apply Z.log2_lt_pow2; lia).
  set (s := Z.log2 m + e - 52) in *.
  assert (Hdiv : m * 2 ^ e = m * 2 ^ (e - s) * 2 ^ s).
  { rewrite <- Z.mul_assoc, <- Z.pow_add_r by lia. do 2 f_equal. lia. }
  assert (HS : 0 < 2 ^ s) by (apply Z.pow_pos_nonneg; lia).
  assert (Hr : (m * 2 ^ e) mod 2 ^ s = 0).
  { rewrite Hdiv. apply Z.mod_mul. lia. }
  assert (Hq' : (m * 2 ^ e) / 2 ^ s = m * 2 ^ (e - s)).
  { rewrite Hdiv at 1. apply Z.div_mul. lia. }
  rewrite Hr, Hq'.
  assert (Hh : 0 < 2 ^ (s - 1)) by (apply Z.pow_pos_nonneg; lia).
  destruct (Z.ltb_spec (2 ^ (s - 1)) 0) as [?|_]; [lia|].
  destruct (Z.eqb_spec 0 (2 ^ (s - 1))) as [?|_]; [lia|].
  cbn [orb andb]. rewrite Z.add_0_r. symmetry. exact Hdiv.
Qed.

Lemma units_unit_double_of M :
  is_unit_double M = true → units (unit_double_of M) = M.
Proof.
  intros H. unfold unit_double_of.
  assert (G : ∀ b (E : is_unit_double M = b),
             b = true →
             units
               (match b as b0 return is_unit_double M = b0 → unit_double with
                | true => λ H0, exist _ M H0
                | false => λ _, zero
                end E) = M).
  { intros b E Hb. destruct b; [reflexivity | discriminate]. }
  apply G. exact H.
Qed.

End DoubleFacts.

(** [Math.floor(1000 + Math.random() * 9000)] is an integer from 1000 to
    9999, whatever double in [0, 1) the call returns. *)
Lemma draw_range (r : Double.unit_double) : (1000 ≤ draw r ≤ 9999)%Z.
Proof.
  unfold draw. destruct r as [M HM]. simpl.
  pose proof (DoubleFacts.add_1000_bounds _ (DoubleFacts.mul_9000_bounds M HM))
    as [Hlo Hhi].
  split.
  - change 1000%Z with (Double.floor (Double.of_int 1000)) at 1.
    apply DoubleFacts.floor_mono. exact Hlo.
  - change 9999%Z with (Double.floor (Double.of_int 10000 - Z.shiftl 1 1035)).
    apply DoubleFacts.floor_mono. exact Hhi.
Qed.

(** ** Facts about decimal strings *)

Lemma digit_char_spec d :
  (0 ≤ d ≤ 9)%Z →
  is_digit (digit_char d) = true ∧
  (Z.of_nat (nat_of_ascii (digit_char d)) - 48 = d)%Z.
Proof.
  intros Hd. unfold is_digit, digit_char.
  rewrite nat_ascii_embedding by lia. split; [|lia].
  apply andb_true_intro. split; apply Nat.leb_le; lia.
Qed.

(** The four digits of a number between 1000 and 9999. *)
Lemma toString_4 n :
  (1000 ≤ n ≤ 9999)%Z →
  toString n =
    String (digit_char (n / 1000 mod 10))
      (String (digit_char (n / 100 mod 10))
         (String (digit_char (n / 10 mod 10))
            (String (digit_char (n mod 10)) ""))).
Proof.
  intros Hn. unfold toString.
  assert (Hlog : (9 ≤ Z.log2 n)%Z).
  { apply Z.log2_le_pow2; [lia|]. change (2 ^ 9)%Z with 512%Z. lia. }
  destruct (Z.to_nat (Z.log2 n)) as [|[|[|f]]] eqn:E; try lia.
  cbn [digits].
  rewrite !Z.div_div by lia. change (10 * 10)%Z with 100%Z.
  change (100 * 10)%Z with 1000%Z.
  destruct (Z.eqb_spec (n / 10) 0) as [H|_]; [Z.to_euclidean_division_equations; lia|].
  destruct (Z.eqb_spec (n / 100) 0) as [H|_]; [Z.to_euclidean_division_equations; lia|].
  destruct (Z.eqb_spec (n / 1000) 0) as [H|_]; [Z.to_euclidean_division_equations; lia|].
  change (1000 * 10)%Z with 10000%Z.
  destruct (Z.eqb_spec (n / 10000) 0) as [_|H]; [reflexivity|].
  exfalso. apply H. apply Z.div_small. lia.
Qed.

Lemma toString_code n :
  (1000 ≤ n ≤ 9999)%Z →
  String.length (toString n) = 4 ∧ all_digits (toString n) = true ∧
  decimal_value 0 (toString n) = n.
Proof.
  intros Hn. rewrite (toString_4 n Hn).
  assert (H3 : (0 ≤ n / 1000 mod 10 ≤ 9)%Z) by (pose proof (Z.mod_pos_bound (n / 1000) 10); lia).
  assert (H2 : (0 ≤ n / 100 mod 10 ≤ 9)%Z) by (pose proof (Z.mod_pos_bound (n / 100) 10); lia).
  assert (H1 : (0 ≤ n / 10 mod 10 ≤ 9)%Z) by (pose proof (Z.mod_pos_bound (n / 10) 10); lia).
  assert (H0 : (0 ≤ n mod 10 ≤ 9)%Z) by (pose proof (Z.mod_pos_bound n 10); lia).
  destruct (digit_char_spec _ H3) as [D3 V3], (digit_char_spec _ H2) as [D2 V2],
    (digit_char_spec _ H1) as [D1 V1], (digit_char_spec _ H0) as [D0 V0].
  split; [reflexivity|]. split.
  - cbn [all_digits]. rewrite D3, D2, D1, D0. reflexivity.
  - cbn [decimal_value]. rewrite V3, V2, V1, V0.
    Z.to_euclidean_division_equations. lia.
Qed.

Lemma toString_code_inj n1 n2 :
  (1000 ≤ n1 ≤ 9999)%Z → (1000 ≤ n2 ≤ 9999)%Z →
  toString n1 = toString n2 → n1 = n2.
Proof.
  intros H1 H2 E.
  destruct (toString_code n1 H1) as (_ & _ & <-).
  destruct (toString_code n2 H2) as (_ & _ & <-).
  rewrite E. reflexivity.
Qed.

(** ** Facts about the component *)

Lemma Map_has_false (m : gmap string FileShare) k :
  Map_has m k = false ↔ m !! k = None.
Proof.
  unfold Map_has. rewrite bool_decide_eq_false, eq_None_not_Some. reflexivity.
Qed.

Lemma Map_has_true (m : gmap string FileShare) k :
  Map_has m k = true ↔ is_Some (m !! k).
Proof. unfold Map_has. apply bool_decide_eq_true. Qed.

Lemma all_digits_replace s : all_digits (replace_nondigits s) = true.
Proof.
  induction s as [|c s IH]; [reflexivity|]. cbn [replace_nondigits].
  destruct (is_digit c) eqn:E; [|exact IH].
  cbn [all_digits]. rewrite E, IH. reflexivity.
Qed.

Lemma all_digits_prefix n s :
  all_digits s = true → all_digits (String.substring 0 n s) = true.
Proof.
  revert s. induction n as [|n IH]; intros [|c s] H; try reflexivity.
  cbn [all_digits String.substring] in *.
  apply andb_prop in H as [-> H]. rewrite (IH s H). reflexivity.
Qed.

Lemma length_prefix n s : String.length (String.substring 0 n s) ≤ n.
Proof.
  revert s. induction n as [|n IH]; intros [|c s]; cbn; try lia.
  specialize (IH s). lia.
Qed.

Lemma is_code_draw r : is_code (toString (draw r)).
Proof.
  destruct (toString_code (draw r) (draw_range r)) as (Hl & Hd & _).
  split; assumption.
Qed.

Section Properties.

Variable random : nat → Double.unit_double.
Variable createObjectURL : nat → File.t → string.

(** What a returning [generateCode] did: it drew at the calls [k .. j], the
    codes of the calls before [j] were taken, the one of call [j] was not. *)
Lemma generateCode_inv fuel (m : gmap string FileShare) k c k' :
  generateCode random fuel m k = Some (c, k') →
  ∃ j, k ≤ j ∧ j < k + fuel ∧ k' = S j ∧ c = toString (draw (random j)) ∧
       m !! c = None ∧
       ∀ i, k ≤ i < j → is_Some (m !! toString (draw (random i))).
Proof.
  revert k. induction fuel as [|fuel IH]; intros k H; [discriminate|].
  cbn [generateCode] in H.
  destruct (Map_has m (toString (draw (random k)))) eqn:E.
  - apply IH in H as (j & Hkj & Hj & -> & -> & Hfree & Hbusy).
    exists j. split_and!; try lia; try assumption; try reflexivity.
    intros i Hi. destruct (decide (i = k)) as [->|Hne].
    + apply Map_has_true. exact E.
    + apply Hbusy. lia.
  - injection H as <- <-. exists k. split_and!; try lia; try reflexivity.
    apply Map_has_false. exact E.
Qed.

Lemma handleFileUpload_inv fuel f w w' :
  handleFileUpload random createObjectURL fuel (Some f) w = Some w' →
  ∃ c k,
    generateCode random fuel (fileShares (app w)) (randomCalls w) = Some (c, k) ∧
    w' =
      {| app :=
           setError ""
             (setUploadedCode c
                (setFileShares
                   (Map_set (fileShares (app w)) c
                      {| code := c; file := f;
                         url := createObjectURL (objectURLs w) f |})
                   (app w)));
         randomCalls := k; objectURLs := S (objectURLs w);
         clicked := clicked w; clipboard := clipboard w; timers := timers w;
         lookups := lookups w |}.
Proof.
  unfold handleFileUpload.
  destruct (generateCode random fuel _ _) as [[c k]|]; [|discriminate].
  intros H. injection H as <-. exists c, k. split; reflexivity.
Qed.

Lemma handleFileUpload_Inv fuel f w w' :
  Inv w →
  handleFileUpload random createObjectURL fuel (Some f) w = Some w' → Inv w'.
Proof.
  intros [Hu Hd Hl He] H.
  apply handleFileUpload_inv in H as (c & k & Hg & ->).
  apply generateCode_inv in Hg as (j & _ & _ & _ & -> & _).
  split; cbn; auto using is_code_draw.
Qed.

Lemma render_Inv w : Inv w → Inv (render w).
Proof.
  intros [Hu Hd Hl He]. split; cbn; try assumption.
  apply Forall_app. split; [exact Hl|]. unfold render_lookups.
  destruct (view (app w)); [|constructor].
  case_bool_decide as E; [constructor|].
  destruct Hu as [Hu|Hu]; [contradiction|].
  constructor; [exact Hu|]. constructor; [exact Hu|]. constructor.
Qed.

Lemma handle_Inv fuel e w w' :
  Inv w → enabled w e = true →
  handle random createObjectURL fuel e w = Some w' → Inv w'.
Proof.
  intros HI En H. pose proof HI as [Hu Hd Hl He].
  destruct e as [| |[f|]| | |[f|]| | | |v|];
    cbn [handle handleFileSelect handleDrop] in H;
    try (injection H as <-; split; cbn; auto; split; first [reflexivity | lia]).
  - eapply handleFileUpload_Inv; eassumption.
  - eapply handleFileUpload_Inv; [|eassumption]. split; cbn; auto.
  - injection H as <-. split; cbn; auto. split.
    + apply all_digits_prefix, all_digits_replace.
    + apply length_prefix.
  - injection H as <-. unfold handleDownload.
    assert (Hc : is_code (downloadCode (app w))).
    { unfold enabled in En. destruct (view (app w)); [discriminate|].
      apply negb_true_iff, bool_decide_eq_false in En.
      split; [|apply Hd]. destruct (decide (String.length (downloadCode (app w)) = 4)); [assumption|contradiction]. }
    destruct (Map_get _ _); split; cbn; auto;
      first [ split; [reflexivity | lia]
            | apply Forall_app; split; [exact Hl|];
              constructor; [exact Hc | constructor] ].
Qed.

Lemma step_Inv fuel w e w' :
  Inv w → step random createObjectURL fuel w e = Some w' → Inv w'.
Proof.
  intros HI. unfold step. destruct (enabled w e) eqn:En.
  - destruct (handle random createObjectURL fuel e w) as [w1|] eqn:H; [|discriminate].
    cbn. intros [= <-]. apply render_Inv. eapply handle_Inv; eassumption.
  - intros [= <-]. exact HI.
Qed.

Lemma init_Inv : Inv init.
Proof. split; cbn; auto. split; [reflexivity | lia]. Qed.

Lemma run_Inv fuel w es w' cs :
  Inv w → run random createObjectURL fuel w es = Some (w', cs) → Inv w'.
Proof.
  revert w cs. induction es as [|e es IH]; intros w cs HI H; cbn in H.
  - injection H as <- _. exact HI.
  - destruct (step random createObjectURL fuel w e) as [w1|] eqn:Hs; [|discriminate].
    destruct (run random createObjectURL fuel w1 es) as [[w2 cs']|] eqn:Hr;
      [|discriminate].
    injection H as <- _. eapply IH; [|exact Hr]. eapply step_Inv; eassumption.
Qed.

(** What an event does to the registry: an upload of a file puts one entry
    under a code that was free; every other event leaves the registry as it
    was. *)
Lemma step_shares fuel w e w' :
  step random createObjectURL fuel w e = Some w' →
  if assigns w e
  then ∃ f,
      fileShares (app w) !! uploadedCode (app w') = None ∧
      is_code (uploadedCode (app w')) ∧
      fileShares (app w') =
        <[uploadedCode (app w') :=
            {| code := uploadedCode (app w'); file := f;
               url := createObjectURL (objectURLs w) f |}]> (fileShares (app w))
  else fileShares (app w') = fileShares (app w).
Proof.
  unfold step, assigns. destruct (enabled w e); [|intros [= <-]; reflexivity].
  destruct (handle random createObjectURL fuel e w) as [w1|] eqn:H; [|discriminate].
  cbn [fmap option_fmap option_map]. intros [= <-]. cbn [andb render app].
  destruct e as [| |[f|]| | |[f|]| | | |v|];
    cbn [handle handleFileSelect handleDrop] in H;
    try (apply (inj Some) in H as <-; reflexivity).
  - apply handleFileUpload_inv in H as (c & k & Hg & ->).
    apply generateCode_inv in Hg as (j & _ & _ & _ & -> & Hfree & _).
    exists f. cbn. split_and!; [exact Hfree | apply is_code_draw | reflexivity].
  - apply handleFileUpload_inv in H as (c & k & Hg & ->).
    apply generateCode_inv in Hg as (j & _ & _ & _ & -> & Hfree & _).
    exists f. cbn. split_and!; [exact Hfree | apply is_code_draw | reflexivity].
  - injection H as <-. unfold handleDownload.
    destruct (Map_get _ _); reflexivity.
Qed.

Lemma step_subseteq fuel w e w' :
  step random createObjectURL fuel w e = Some w' →
  fileShares (app w) ⊆ fileShares (app w').
Proof.
  intros H. apply step_shares in H. destruct (assigns w e).
  - destruct H as (f & Hfree & _ & ->). apply insert_subseteq. exact Hfree.
  - rewrite H. reflexivity.
Qed.

Lemma run_shares fuel w es w' cs :
  run random createObjectURL fuel w es = Some (w', cs) →
  NoDup cs ∧
  (∀ c, c ∈ cs → fileShares (app w) !! c = None ∧ is_code c) ∧
  dom (fileShares (app w')) = dom (fileShares (app w)) ∪ list_to_set cs ∧
  fileShares (app w) ⊆ fileShares (app w').
Proof.
  revert w cs. induction es as [|e es IH]; intros w cs H; cbn in H.
  - injection H as <- <-. split_and!; [constructor | | | reflexivity].
    + intros c Hc. inversion Hc.
    + cbn. rewrite (right_id_L ∅ (∪)). reflexivity.
  - destruct (step random createObjectURL fuel w e) as [w1|] eqn:Hs; [|discriminate].
    destruct (run random createObjectURL fuel w1 es) as [[w2 cs']|] eqn:Hr;
      [|discriminate].
    injection H as <- <-.
    destruct (IH _ _ Hr) as (Hnd & Hfree & Hdom & Hsub).
    pose proof (step_subseteq _ _ _ _ Hs) as Hsub1.
    apply step_shares in Hs. destruct (assigns w e).
    + destruct Hs as (f & Hnew & Hcode & Hput).
      set (c0 := uploadedCode (app w1)) in *.
      split_and!.
      * apply NoDup_cons. split; [|exact Hnd].
        intros Hin. apply Hfree in Hin as [Hin _].
        rewrite Hput, lookup_insert_eq in Hin. discriminate.
      * intros c Hc. apply elem_of_cons in Hc as [->|Hc]; [split; assumption|].
        apply Hfree in Hc as [Hc Hcc]. split; [|exact Hcc].
        rewrite Hput in Hc. apply lookup_insert_None in Hc as [Hc _]. exact Hc.
      * rewrite Hdom, Hput, dom_insert_L. cbn [list_to_set foldr].
        rewrite (comm_L (∪) {[c0]}), <- (assoc_L (∪)). reflexivity.
      * etransitivity; eassumption.
    + split_and!; [exact Hnd | | | etransitivity; eassumption].
      * intros c Hc. rewrite <- Hs. apply Hfree. exact Hc.
      * rewrite Hdom, Hs. reflexivity.
Qed.

(** ** The claims *)

(** C1.  Uniqueness of assigned codes.  The code [generateCode] returns is
    not a key of the registry it was called on; an event that assigns a code
    assigns one that is free at that moment and taken afterwards; and the
    codes assigned in the course of a session, however many uploads it has,
    are pairwise distinct and distinct from the keys live at its start, the
    keys at its end being exactly those and the assigned ones. *)
Theorem assigned_codes_unique fuel :
  (∀ (m : gmap string FileShare) k c k',
      generateCode random fuel m k = Some (c, k') → Map_has m c = false) ∧
  (∀ w e w',
      step random createObjectURL fuel w e = Some w' → assigns w e = true →
      Map_has (fileShares (app w)) (uploadedCode (app w')) = false ∧
      Map_has (fileShares (app w')) (uploadedCode (app w')) = true) ∧
  (∀ w es w' cs,
      run random createObjectURL fuel w es = Some (w', cs) →
      NoDup cs ∧
      (∀ c, c ∈ cs → Map_has (fileShares (app w)) c = false) ∧
      dom (fileShares (app w')) = dom (fileShares (app w)) ∪ list_to_set cs).
Proof.
  split_and!.
  - intros m k c k' H. apply generateCode_inv in H as (j & _ & _ & _ & _ & H & _).
    apply Map_has_false. exact H.
  - intros w e w' Hs Ha. apply step_shares in Hs. rewrite Ha in Hs.
    destruct Hs as (f & Hfree & _ & Hput). split.
    + apply Map_has_false. exact Hfree.
    + apply Map_has_true. rewrite Hput, lookup_insert_eq. eexists. reflexivity.
  - intros w es w' cs H. apply run_shares in H as (Hnd & Hfree & Hdom & _).
    split_and!; [exact Hnd | | exact Hdom].
    intros c Hc. apply Map_has_false. apply Hfree. exact Hc.
Qed.

(** C2.  Code format.  Whatever the registry and whatever doubles
    [Math.random] returns, a code returned by [generateCode] has exactly four
    characters, all decimal digits, the first of them not a zero; it denotes
    a number from 1000 to 9999 and is the decimal form of that number. *)
Theorem generateCode_format fuel (m : gmap string FileShare) k c k' :
  generateCode random fuel m k = Some (c, k') →
  String.length c = 4 ∧ all_digits c = true ∧
  (1000 ≤ decimal_value 0 c ≤ 9999)%Z ∧
  toString (decimal_value 0 c) = c ∧
  ∀ rest, c ≠ String "0" rest.
Proof.
  intros H. apply generateCode_inv in H as (j & _ & _ & _ & -> & _).
  pose proof (draw_range (random j)) as Hr.
  destruct (toString_code _ Hr) as (Hl & Hd & Hv).
  rewrite Hv. split_and!; try assumption; try reflexivity; try apply Hr.
  intros rest E. rewrite (toString_4 _ Hr) in E. injection E as E _.
  assert (Hq : (1 ≤ draw (random j) / 1000 mod 10 ≤ 9)%Z).
  { revert Hr. generalize (draw (random j)). intros n Hn.
    assert (1 ≤ n / 1000 < 10)%Z
      by (split; [apply Z.div_le_lower_bound | apply Z.div_lt_upper_bound]; lia).
    rewrite Z.mod_small; lia. }
  destruct (digit_char_spec (draw (random j) / 1000 mod 10)) as [_ Hn]; [lia|].
  rewrite E in Hn. change (Z.of_nat (nat_of_ascii "0")) with 48%Z in Hn. lia.
Qed.

(** Every entry of the registry is still there, unchanged, at the end of a
    session. *)
Lemma run_lookup fuel w es w' cs c share :
  run random createObjectURL fuel w es = Some (w', cs) →
  fileShares (app w) !! c = Some share → fileShares (app w') !! c = Some share.
Proof.
  intros H Hc. apply run_shares in H as (_ & _ & _ & Hsub).
  eapply lookup_weaken; eassumption.
Qed.

(** C3.  Round trip.  After an upload of [f] the registry holds, under the
    code shown, an entry whose file is [f], name and size as they were; a
    download of that code starts the transfer of that entry's URL under the
    file's name and shows no error; and the entry stays under its code
    through every later session, no event of which overwrites it. *)
Theorem upload_roundtrip fuel f w w1 :
  handleFileUpload random createObjectURL fuel (Some f) w = Some w1 →
  ∃ share,
    Map_get (fileShares (app w1)) (uploadedCode (app w1)) = Some share ∧
    code share = uploadedCode (app w1) ∧ file share = f ∧
    File.name (file share) = File.name f ∧
    File.size (file share) = File.size f ∧
    (∀ w2,
        fileShares (app w2) = fileShares (app w1) →
        downloadCode (app w2) = uploadedCode (app w1) →
        clicked (handleDownload w2) = clicked w2 ++ [(url share, File.name f)] ∧
        error (app (handleDownload w2)) = "") ∧
    (∀ fuel' w1' es w2 cs,
        Map_get (fileShares (app w1')) (uploadedCode (app w1)) = Some share →
        run random createObjectURL fuel' w1' es = Some (w2, cs) →
        Map_get (fileShares (app w2)) (uploadedCode (app w1)) = Some share).
Proof.
  intros H. apply handleFileUpload_inv in H as (c & k & _ & ->). cbn.
  eexists. split_and!.
  - unfold Map_get, Map_set. apply lookup_insert_eq.
  - reflexivity.
  - reflexivity.
  - reflexivity.
  - reflexivity.
  - intros w2 Hm Hc. unfold handleDownload. rewrite Hm, Hc. cbn.
    unfold Map_get, Map_set. rewrite lookup_insert_eq. cbn. split; reflexivity.
  - intros fuel' w1' es w2 cs Hget Hrun. unfold Map_get in *.
    eapply run_lookup; eassumption.
Qed.

(** C4.  Miss behaviour.  A download whose code is not a key of the registry
    sets the error message and starts no transfer, and one whose code is a
    key clears it; in a session that starts from the first render, a code
    that was not assigned is not a key; the error shown is at any time either
    empty or that one message; and the message appears only by a download
    whose lookup missed. *)
Theorem download_miss_not_found fuel :
  (∀ w,
      Map_get (fileShares (app w)) (downloadCode (app w)) = None →
      error (app (handleDownload w)) = invalid_code ∧
      clicked (handleDownload w) = clicked w) ∧
  (∀ w share,
      Map_get (fileShares (app w)) (downloadCode (app w)) = Some share →
      error (app (handleDownload w)) = "") ∧
  (∀ es w cs c,
      run random createObjectURL fuel init es = Some (w, cs) →
      c ∉ cs → Map_get (fileShares (app w)) c = None) ∧
  (∀ es w cs,
      run random createObjectURL fuel init es = Some (w, cs) →
      error (app w) = "" ∨ error (app w) = invalid_code) ∧
  (∀ w e w',
      step random createObjectURL fuel w e = Some w' →
      error (app w') = invalid_code →
      error (app w) = invalid_code ∨
      (e = ClickDownload ∧
       Map_get (fileShares (app w)) (downloadCode (app w)) = None)).
Proof.
  split_and!.
  - intros w H. unfold handleDownload. rewrite H. split; reflexivity.
  - intros w share H. unfold handleDownload. rewrite H. reflexivity.
  - intros es w cs c H Hc. apply run_shares in H as (_ & _ & Hdom & _).
    unfold Map_get. apply not_elem_of_dom. rewrite Hdom.
    cbn. rewrite dom_empty_L, (left_id_L ∅ (∪)), elem_of_list_to_set. exact Hc.
  - intros es w cs H. apply (run_Inv _ _ _ _ _ init_Inv) in H. apply H.
  - intros w e w'. unfold step. destruct (enabled w e); [|intros [= <-]; auto].
    destruct (handle random createObjectURL fuel e w) as [w1|] eqn:H; [|discriminate].
    cbn [fmap option_fmap option_map]. intros [= <-]. cbn [render app].
    destruct e as [| |[f|]| | |[f|]| | | |v|];
      cbn [handle handleFileSelect handleDrop] in H;
      try (apply (inj Some) in H as <-; cbn; first [discriminate | auto]).
    + apply handleFileUpload_inv in H as (c & k & _ & ->). cbn. discriminate.
    + apply handleFileUpload_inv in H as (c & k & _ & ->). cbn. discriminate.
    + unfold handleDownload.
      destruct (Map_get _ _) eqn:E; cbn; [discriminate | auto].
Qed.


(** C6.  Input constraint.  Whatever is typed, the code field stores digits
    only, four at most; while the stored code has a length other than four
    the download button is disabled and a click on it does nothing; and in a
    session that starts from the first render the stored code is always made
    of at most four digits, and every key that was handed to the registry's
    [get] has exactly four characters, all of them digits. *)
Theorem download_code_constrained fuel :
  (∀ value w,
      all_digits (downloadCode (app (onChangeCode value w))) = true ∧
      String.length (downloadCode (app (onChangeCode value w))) ≤ 4) ∧
  (∀ w,
      String.length (downloadCode (app w)) ≠ 4 →
      enabled w ClickDownload = false ∧
      step random createObjectURL fuel w ClickDownload = Some w) ∧
  (∀ es w cs,
      run random createObjectURL fuel init es = Some (w, cs) →
      all_digits (downloadCode (app w)) = true ∧
      String.length (downloadCode (app w)) ≤ 4 ∧
      ∀ k, k ∈ lookups w → String.length k = 4 ∧ all_digits k = true).
Proof.
  split_and!.
  - intros value w. cbn. unfold slice. split.
    + apply all_digits_prefix, all_digits_replace.
    + apply length_prefix.
  - intros w Hlen.
    assert (En : enabled w ClickDownload = false).
    { unfold enabled. destruct (view (app w)); [reflexivity|].
      rewrite bool_decide_eq_true_2 by exact Hlen. reflexivity. }
    split; [exact En|]. unfold step. rewrite En. reflexivity.
  - intros es w cs H. apply (run_Inv _ _ _ _ _ init_Inv) in H as [_ [Hd Hl] Hk _].
    split_and!; [exact Hd | exact Hl |].
    intros k Hin. rewrite Forall_forall in Hk. apply Hk. exact Hin.
Qed.

(** C7.  No eviction.  No event removes or changes an entry: after a step
    the registry contains the one before it and is no smaller; the "Upload
    Another File" button leaves the registry as it is and clears the code
    shown; and over a whole session every entry present at the start is
    present at the end under its code, and the size has not gone down. *)
Theorem no_eviction fuel :
  (∀ w e w',
      step random createObjectURL fuel w e = Some w' →
      fileShares (app w) ⊆ fileShares (app w') ∧
      size (fileShares (app w)) ≤ size (fileShares (app w'))) ∧
  (∀ w w',
      step random createObjectURL fuel w ClickUploadAnother = Some w' →
      fileShares (app w') = fileShares (app w) ∧
      (enabled w ClickUploadAnother = true → uploadedCode (app w') = "")) ∧
  (∀ w es w' cs,
      run random createObjectURL fuel w es = Some (w', cs) →
      size (fileShares (app w)) ≤ size (fileShares (app w')) ∧
      ∀ c share,
        Map_get (fileShares (app w)) c = Some share →
        Map_get (fileShares (app w')) c = Some share).
Proof.
  split_and!.
  - intros w e w' H. apply step_subseteq in H.
    split; [exact H | apply map_subseteq_size; exact H].
  - intros w w'. unfold step.
    destruct (enabled w ClickUploadAnother); intros [= <-]; cbn; auto.
    split; [reflexivity | discriminate].
  - intros w es w' cs H. split.
    + apply run_shares in H as (_ & _ & _ & Hsub).
      apply map_subseteq_size. exact Hsub.
    + intros c share Hc. unfold Map_get in *. eapply run_lookup; eassumption.
Qed.

(** C8.  The lookup leaves the registry alone.  [handleDownload] returns
    with the registry it found, on a hit and on a miss; on a miss it changes
    the error message and nothing else: the entered code, the other state,
    the transfers started, the clipboard and the timers are as before. *)
Theorem handleDownload_frame fuel :
  (∀ w, fileShares (app (handleDownload w)) = fileShares (app w)) ∧
  (∀ w,
      Map_get (fileShares (app w)) (downloadCode (app w)) = None →
      app (handleDownload w) = setError invalid_code (app w) ∧
      downloadCode (app (handleDownload w)) = downloadCode (app w) ∧
      clicked (handleDownload w) = clicked w ∧
      randomCalls (handleDownload w) = randomCalls w ∧
      objectURLs (handleDownload w) = objectURLs w ∧
      clipboard (handleDownload w) = clipboard w ∧
      timers (handleDownload w) = timers w) ∧
  (∀ w w',
      step random createObjectURL fuel w ClickDownload = Some w' →
      fileShares (app w') = fileShares (app w)).
Proof.
  split_and!.
  - intros w. unfold handleDownload. destruct (Map_get _ _); reflexivity.
  - intros w H. unfold handleDownload. rewrite H. cbn. split_and!; reflexivity.
  - intros w w' H. apply step_shares in H.
    replace (assigns w ClickDownload) with false in H; [exact H|].
    unfold assigns. destruct (enabled w ClickDownload); reflexivity.
Qed.



(** C10.  Frame of an upload.  An upload of a file puts exactly one entry
    into the registry, under the code it generated, which was free: the size
    grows by one, every entry that was there is there unchanged, no other
    key is affected; the code shown is the new code, a key of the new
    registry; the error message is cleared, and the rest of the state is as
    before. *)
Theorem handleFileUpload_frame fuel f w w' :
  handleFileUpload random createObjectURL fuel (Some f) w = Some w' →
  Map_has (fileShares (app w)) (uploadedCode (app w')) = false ∧
  fileShares (app w') =
    Map_set (fileShares (app w)) (uploadedCode (app w'))
      {| code := uploadedCode (app w'); file := f;
         url := createObjectURL (objectURLs w) f |} ∧
  size (fileShares (app w')) = S (size (fileShares (app w))) ∧
  (∀ c share,
      Map_get (fileShares (app w)) c = Some share →
      Map_get (fileShares (app w')) c = Some share) ∧
  (∀ c,
      c ≠ uploadedCode (app w') →
      Map_get (fileShares (app w')) c = Map_get (fileShares (app w)) c) ∧
  Map_has (fileShares (app w')) (uploadedCode (app w')) = true ∧
  error (app w') = "" ∧
  view (app w') = view (app w) ∧
  downloadCode (app w') = downloadCode (app w) ∧
  copied (app w') = copied (app w) ∧
  isDragging (app w') = isDragging (app w).
Proof.
  intros H. apply handleFileUpload_inv in H as (c & k & Hg & ->).
  apply generateCode_inv in Hg as (j & _ & _ & _ & Hc & Hfree & _).
  cbn. unfold Map_get, Map_set. split_and!; try reflexivity.
  - apply Map_has_false. exact Hfree.
  - apply map_size_insert_None. exact Hfree.
  - intros c' share H. rewrite lookup_insert_ne; [exact H|].
    intros <-. rewrite Hfree in H. discriminate.
  - intros c' Hne. apply lookup_insert_ne. congruence.
  - apply Map_has_true. rewrite lookup_insert_eq. eexists. reflexivity.
Qed.

End Properties.

(** ** The claims on concrete sessions *)

Section BucketDraw.
Import Double DoubleFacts.
Local Open Scope Z_scope.

(** The draw made from [Example.bucket i] is [1000 + i]. *)
Lemma draw_bucket i :
  (0 ≤ i < 9000)%Z → draw (Example.bucket i) = (1000 + i)%Z.
Proof.
  intros Hi. unfold Example.bucket.
  set (m := i * 2 ^ 40 / 9000 + 1).
  assert (Hm : i * 2 ^ 40 < m * 9000 ≤ i * 2 ^ 40 + 9000 ∧ 0 < m < 2 ^ 40).
  { unfold m. change (2 ^ 40) with 1099511627776.
    Z.to_euclidean_division_equations. lia. }
  destruct Hm as [Hm Hm'].
  rewrite Z.shiftl_mul_pow2 by lia.
  assert (HP : 0 < 2 ^ 1034) by (apply Z.pow_pos_nonneg; lia).
  assert (E74 : 2 ^ 1074 = 2 ^ 40 * 2 ^ 1034)
    by (rewrite <- Z.pow_add_r by lia; reflexivity).
  assert (HM : is_unit_double (m * 2 ^ 1034) = true).
  { unfold is_unit_double, one. rewrite Z.shiftl_mul_pow2, Z.mul_1_l by lia.
    rewrite round53_exact by (change (2 ^ 53) with 9007199254740992;
                              change (2 ^ 40) with 1099511627776 in Hm'; lia).
    rewrite Z.eqb_refl, andb_true_r. apply andb_true_intro. split.
    - apply Z.leb_le. nia.
    - apply Z.ltb_lt. rewrite E74. apply Z.mul_lt_mono_pos_r; lia. }
  unfold draw. rewrite (units_unit_double_of _ HM).
  unfold floor, add, mul_int, of_int.
  rewrite Z.shiftr_div_pow2, Z.shiftl_mul_pow2 by lia.
  set (y := round53 (m * 2 ^ 1034 * 9000)).
  assert (Hy : i * 2 ^ 1074 ≤ y ≤ ((i + 1) * 2 ^ 20 - 1) * 2 ^ 1054).
  { split.
    - rewrite <- (round53_exact i 1074)
        by (change (2 ^ 53) with 9007199254740992; lia).
      apply round53_mono. rewrite E74. nia.
    - rewrite <- (round53_exact ((i + 1) * 2 ^ 20 - 1) 1054)
        by (change (2 ^ 53) with 9007199254740992;
            change (2 ^ 20) with 1048576; lia).
      apply round53_mono.
      replace (2 ^ 1054) with (2 ^ 20 * 2 ^ 1034)
        by (rewrite <- Z.pow_add_r by lia; reflexivity).
      change (2 ^ 20) with 1048576. change (2 ^ 40) with 1099511627776 in Hm.
      nia. }
  clearbody y.
  set (z := round53 (1000 * 2 ^ 1074 + y)).
  assert (Hz : (1000 + i) * 2 ^ 1074 ≤ z ≤ ((1001 + i) * 2 ^ 20 - 1) * 2 ^ 1054).
  { split.
    - rewrite <- (round53_exact (1000 + i) 1074)
        by (change (2 ^ 53) with 9007199254740992; lia).
      apply round53_mono. lia.
    - rewrite <- (round53_exact ((1001 + i) * 2 ^ 20 - 1) 1054)
        by (change (2 ^ 53) with 9007199254740992;
            change (2 ^ 20) with 1048576; lia).
      apply round53_mono.
      replace (2 ^ 1074) with (2 ^ 20 * 2 ^ 1054)
        by (rewrite <- Z.pow_add_r by lia; reflexivity).
      assert (0 < 2 ^ 1054) by (apply Z.pow_pos_nonneg; lia).
      change (2 ^ 20) with 1048576 in *. nia. }
  clearbody z.
  assert (H74 : 0 < 2 ^ 1074) by (apply Z.pow_pos_nonneg; lia).
  apply Z.le_antisymm.
  - apply Z.lt_succ_r. apply Z.div_lt_upper_bound; [exact H74|].
    replace (2 ^ 1074) with (2 ^ 20 * 2 ^ 1054) in *
      by (rewrite <- Z.pow_add_r by lia; reflexivity).
    assert (0 < 2 ^ 1054) by (apply Z.pow_pos_nonneg; lia).
    change (2 ^ 20) with 1048576 in *. nia.
  - apply Z.div_le_lower_bound; [exact H74|]. lia.
Qed.

End BucketDraw.




Lemma assigned_codes_unique_witness :
  snd <$> run Example.twice Example.blob_url 5 init Example.session
    = Some ["1000"; "1001"] ∧
  NoDup ["1000"; "1001"].
Proof.
  assert (Hcs : snd <$> run Example.twice Example.blob_url 5 init Example.session
                = Some ["1000"; "1001"]) by (vm_compute; reflexivity).
  split; [exact Hcs|].
  destruct (run Example.twice Example.blob_url 5 init Example.session)
    as [[w' cs]|] eqn:E; [|discriminate Hcs].
  injection Hcs as <-.
  exact (proj1 (proj2 (proj2
           (assigned_codes_unique Example.twice Example.blob_url 5)) _ _ _ _ E)).
Defined.

Lemma generateCode_format_witness :
  generateCode Example.twice 5 {[ "1000" := Example.share_1000 ]} 0
    = Some ("1001", 3) ∧
  String.length "1001" = 4 ∧ (1000 ≤ decimal_value 0 "1001" ≤ 9999)%Z.
Proof.
  assert (E : generateCode Example.twice 5 {[ "1000" := Example.share_1000 ]} 0
              = Some ("1001", 3)) by (vm_compute; reflexivity).
  pose proof (generateCode_format Example.twice 5 _ _ _ _ E) as (Hl & _ & Hv & _).
  split; [exact E|]. split; [exact Hl | exact Hv].
Defined.

Lemma upload_roundtrip_witness :
  ∃ w1 share,
    handleFileUpload Example.twice Example.blob_url 5 (Some Example.notes) init
      = Some w1 ∧
    uploadedCode (app w1) = "1000" ∧
    Map_get (fileShares (app w1)) "1000" = Some share ∧
    File.name (file share) = "notes.txt" ∧ File.size (file share) = 5%Z.
Proof.
  eexists. 
  assert (E : handleFileUpload Example.twice Example.blob_url 5
                (Some Example.notes) init = Some ?[w1])
    by (vm_compute; reflexivity).
  destruct (upload_roundtrip Example.twice Example.blob_url 5 _ _ _ E)
    as (share & Hget & _ & _ & Hname & Hsize & _).
  exists share. split_and!; [exact E | reflexivity | exact Hget | exact Hname | exact Hsize].
Defined.

Lemma download_miss_not_found_witness :
  error (app (handleDownload (onChangeCode "4711" init))) = invalid_code ∧
  clicked (handleDownload (onChangeCode "4711" init)) = [].
Proof.
  apply (proj1 (download_miss_not_found Example.twice Example.blob_url 5)
           (onChangeCode "4711" init)).
  vm_compute. reflexivity.
Defined.

Lemma download_code_constrained_witness :
  enabled (onChangeCode "7x7" init) ClickDownload = false ∧
  step Example.twice Example.blob_url 5 (onChangeCode "7x7" init) ClickDownload
    = Some (onChangeCode "7x7" init).
Proof.
  apply (proj1 (proj2
           (download_code_constrained Example.twice Example.blob_url 5))
           (onChangeCode "7x7" init)).
  vm_compute. lia.
Defined.

Lemma no_eviction_witness :
  ∃ w1,
    step Example.twice Example.blob_url 5 init (SelectFile (Some Example.notes))
      = Some w1 ∧
    fileShares (app init) ⊆ fileShares (app w1) ∧
    size (fileShares (app init)) ≤ size (fileShares (app w1)).
Proof.
  eexists.
  assert (E : step Example.twice Example.blob_url 5 init
                (SelectFile (Some Example.notes)) = Some ?[w1])
    by (vm_compute; reflexivity).
  split; [exact E|].
  exact (proj1 (no_eviction Example.twice Example.blob_url 5) _ _ _ E).
Defined.

Lemma handleDownload_frame_witness :
  app (handleDownload (onChangeCode "4711" init))
    = setError invalid_code (app (onChangeCode "4711" init)) ∧
  downloadCode (app (handleDownload (onChangeCode "4711" init))) = "4711".
Proof.
  destruct (proj1 (proj2 (handleDownload_frame Example.twice Example.blob_url 5))
              (onChangeCode "4711" init)) as (Happ & Hcode & _).
  - vm_compute. reflexivity.
  - split; [exact Happ | exact Hcode].
Defined.


Lemma handleFileUpload_frame_witness :
  ∃ w1,
    handleFileUpload Example.twice Example.blob_url 5 (Some Example.notes) init
      = Some w1 ∧
    size (fileShares (app w1)) = 1 ∧ error (app w1) = "".
Proof.
  eexists.
  assert (E : handleFileUpload Example.twice Example.blob_url 5
                (Some Example.notes) init = Some ?[w1])
    by (vm_compute; reflexivity).
  destruct (handleFileUpload_frame Example.twice Example.blob_url 5 _ _ _ E)
    as (_ & _ & Hsize & _ & _ & _ & Herr & _).
  split_and!; [exact E | exact Hsize | exact Herr].
Defined.

(** ** Further properties of the component *)



Lemma replace_nondigits_id s :
  all_digits s = true → replace_nondigits s = s.
Proof.
  induction s as [|c s IH]; [reflexivity|]. cbn. intros H.
  apply andb_prop in H as [Hc Hs]. rewrite Hc, (IH Hs). reflexivity.
Qed.

Lemma substring_0_all n s :
  String.length s ≤ n → String.substring 0 n s = s.
Proof.
  revert s. induction n as [|n IH]; intros [|c s] H; cbn in *; try reflexivity.
  - lia.
  - rewrite IH by lia. reflexivity.
Qed.

Lemma elem_of_keyspace c : c ∈ keyspace ↔ in_keyspace c.
Proof.
  unfold keyspace, in_keyspace.
  rewrite elem_of_list_to_set, list_elem_of_fmap. split.
  - intros (n & -> & Hn). exists n. apply elem_of_seqZ in Hn. split; [lia | reflexivity].
  - intros (n & Hn & ->). exists n. split; [reflexivity|]. apply elem_of_seqZ. lia.
Qed.

(** There are 9000 codes. *)
Lemma size_keyspace : size keyspace = 9000.
Proof.
  unfold keyspace. rewrite size_list_to_set.
  - rewrite length_fmap, length_seqZ. reflexivity.
  - apply NoDup_fmap_2_strong; [|apply NoDup_seqZ].
    intros n1 n2 H1 H2 E. apply elem_of_seqZ in H1, H2.
    apply toString_code_inj; [lia | lia | exact E].
Qed.

Section Further.

Variable random : nat → Double.unit_double.
Variable createObjectURL : nat → File.t → string.

Lemma in_keyspace_nonempty c : in_keyspace c → c ≠ "".
Proof.
  intros (n & Hn & ->) E. destruct (toString_code n Hn) as (Hl & _).
  rewrite E in Hl. discriminate.
Qed.

Lemma handleFileUpload_Consistent fuel f w w' :
  Consistent createObjectURL w →
  handleFileUpload random createObjectURL fuel (Some f) w = Some w' →
  Consistent createObjectURL w'.
Proof.
  intros [He Hs Hc Ht] H.
  apply handleFileUpload_inv in H as (c & k & Hg & ->).
  apply generateCode_inv in Hg as (j & _ & _ & _ & -> & Hfree & _).
  split; cbn; unfold Map_set.
  - intros k' share Hk. destruct (decide (toString (draw (random j)) = k')) as [<-|Hne].
    + rewrite lookup_insert_eq in Hk. injection Hk as <-. cbn. split_and!.
      * reflexivity.
      * eexists. split; [apply draw_range | reflexivity].
      * exists (objectURLs w). split; [lia | reflexivity].
    + rewrite lookup_insert_ne in Hk by exact Hne.
      destruct (He _ _ Hk) as (H1 & H2 & i & Hi & H3).
      split_and!; [exact H1 | exact H2 |]. exists i. split; [lia | exact H3].
  - right. rewrite lookup_insert_eq. eexists. reflexivity.
  - intros c Hcl. destruct (decide (toString (draw (random j)) = c)) as [<-|Hne].
    + rewrite lookup_insert_eq. eexists. reflexivity.
    + rewrite lookup_insert_ne by exact Hne. apply Hc. exact Hcl.
  - exact Ht.
Qed.

Lemma handle_Consistent fuel e w w' :
  Consistent createObjectURL w → enabled w e = true →
  handle random createObjectURL fuel e w = Some w' →
  Consistent createObjectURL w'.
Proof.
  intros HC En H. pose proof HC as [He Hs Hc Ht].
  destruct e as [| |[f|]| | |[f|]| | | |v|];
    cbn [handle handleFileSelect handleDrop] in H;
    try (apply (inj Some) in H as <-; split; cbn; auto; fail).
  - eapply handleFileUpload_Consistent; eassumption.
  - eapply handleFileUpload_Consistent; [|eassumption]. split; cbn; auto.
  - apply (inj Some) in H as <-. split; cbn; auto.
    + intros c [= <-]. unfold enabled in En. cbn in En.
      destruct (view (app w)); [|discriminate].
      apply negb_true_iff, bool_decide_eq_false in En.
      destruct Hs as [Hs|Hs]; [contradiction | exact Hs].
    + intros _. lia.
  - apply (inj Some) in H as <-. split; cbn; auto. discriminate.
  - apply (inj Some) in H as <-. unfold handleDownload.
    destruct (Map_get _ _); split; cbn; auto.
Qed.

Lemma step_Consistent fuel w e w' :
  Consistent createObjectURL w →
  step random createObjectURL fuel w e = Some w' →
  Consistent createObjectURL w'.
Proof.
  intros HC. unfold step. destruct (enabled w e) eqn:En.
  - destruct (handle random createObjectURL fuel e w) as [w1|] eqn:H; [|discriminate].
    cbn. intros [= <-].
    apply (handle_Consistent _ _ _ _ HC En) in H as [He Hs Hc Ht].
    split; cbn; assumption.
  - intros [= <-]. exact HC.
Qed.

Lemma init_Consistent : Consistent createObjectURL init.
Proof.
  split; cbn; auto.
  - intros k share H. rewrite lookup_empty in H. discriminate.
  - discriminate.
  - discriminate.
Qed.

Lemma run_Consistent fuel w es w' cs :
  Consistent createObjectURL w →
  run random createObjectURL fuel w es = Some (w', cs) →
  Consistent createObjectURL w'.
Proof.
  revert w cs. induction es as [|e es IH]; intros w cs HC H; cbn in H.
  - injection H as <- _. exact HC.
  - destruct (step random createObjectURL fuel w e) as [w1|] eqn:Hs; [|discriminate].
    destruct (run random createObjectURL fuel w1 es) as [[w2 cs']|] eqn:Hr;
      [|discriminate].
    injection H as <- _. eapply IH; [|exact Hr]. eapply step_Consistent; eassumption.
Qed.



Lemma generateCode_more_fuel fuel d (m : gmap string FileShare) k r :
  generateCode random fuel m k = Some r →
  generateCode random (fuel + d) m k = Some r.
Proof.
  revert k. induction fuel as [|fuel IH]; intros k H; [discriminate|].
  cbn [generateCode Nat.add] in *.
  destruct (Map_has m (toString (draw (random k)))); [apply IH|]; exact H.
Qed.

(** X2.  The loop of [generateCode].  A returning call made at least one
    draw and at most as many as it had iterations; the code it returns is
    that of its last draw, which is free, and the codes of all draws before
    it were taken; and the result is the same for every larger bound on the
    iterations. *)
Theorem generateCode_first_free fuel (m : gmap string FileShare) k c k' :
  generateCode random fuel m k = Some (c, k') →
  k < k' ∧ k' ≤ k + fuel ∧
  c = toString (draw (random (pred k'))) ∧
  Map_has m c = false ∧
  (∀ i, k ≤ i < pred k' → Map_has m (toString (draw (random i))) = true) ∧
  (∀ fuel', fuel ≤ fuel' → generateCode random fuel' m k = Some (c, k')).
Proof.
  intros H. pose proof H as H0.
  apply generateCode_inv in H as (j & Hkj & Hj & -> & -> & Hfree & Hbusy).
  cbn [pred]. split_and!; try lia; try reflexivity.
  - apply Map_has_false. exact Hfree.
  - intros i Hi. apply Map_has_true. apply Hbusy. exact Hi.
  - intros fuel' Hf. replace fuel' with (fuel + (fuel' - fuel)) by lia.
    apply generateCode_more_fuel. exact H0.
Qed.

(** What an event does to the counters of the calls made: an upload of a
    file calls [URL.createObjectURL] once and [Math.random] at least once,
    every other event calls neither. *)
Lemma step_calls fuel w e w' :
  step random createObjectURL fuel w e = Some w' →
  if assigns w e
  then objectURLs w' = S (objectURLs w) ∧ randomCalls w < randomCalls w'
  else objectURLs w' = objectURLs w ∧ randomCalls w' = randomCalls w.
Proof.
  unfold step, assigns. destruct (enabled w e); [|intros [= <-]; split; reflexivity].
  destruct (handle random createObjectURL fuel e w) as [w1|] eqn:H; [|discriminate].
  cbn [fmap option_fmap option_map]. intros [= <-]. cbn [andb render].
  destruct e as [| |[f|]| | |[f|]| | | |v|];
    cbn [handle handleFileSelect handleDrop] in H;
    try (apply (inj Some) in H as <-; split; reflexivity).
  - apply handleFileUpload_inv in H as (c & k & Hg & ->).
    apply generateCode_inv in Hg as (j & Hj & _ & -> & _). cbn in Hj |- *.
    clear -Hj. lia.
  - apply handleFileUpload_inv in H as (c & k & Hg & ->).
    apply generateCode_inv in Hg as (j & Hj & _ & -> & _). cbn in Hj |- *.
    clear -Hj. lia.
  - apply (inj Some) in H as <-. unfold handleDownload.
    destruct (Map_get _ _); split; reflexivity.
Qed.

(** X3.  Accounting of a session.  The registry grows by exactly one entry
    per upload, [URL.createObjectURL] is called exactly once per upload and
    by nothing else, and [Math.random] is called at least once per upload. *)
Theorem session_accounting fuel w es w' cs :
  run random createObjectURL fuel w es = Some (w', cs) →
  size (fileShares (app w')) = size (fileShares (app w)) + length cs ∧
  objectURLs w' = objectURLs w + length cs ∧
  randomCalls w + length cs ≤ randomCalls w'.
Proof.
  revert w cs. induction es as [|e es IH]; intros w cs H; cbn in H.
  - injection H as <- <-. cbn. lia.
  - destruct (step random createObjectURL fuel w e) as [w1|] eqn:Hs; [|discriminate].
    destruct (run random createObjectURL fuel w1 es) as [[w2 cs']|] eqn:Hr;
      [|discriminate].
    injection H as <- <-. destruct (IH _ _ Hr) as (Hsz & Hu & Hr').
    pose proof (step_calls _ _ _ _ Hs) as Hc.
    apply step_shares in Hs. destruct (assigns w e).
    + destruct Hs as (f & Hfree & _ & Hput). destruct Hc as [Hc1 Hc2].
      rewrite Hput, (map_size_insert_None _ _ _ Hfree) in Hsz. cbn [length]. lia.
    + destruct Hc as [Hc1 Hc2]. rewrite Hs in Hsz. lia.
Qed.

(** X4.  The keyspace is all of 1000 .. 9999.  Each of these numbers is the
    draw of some double in [0, 1), and [generateCode] returns its decimal
    form at the first draw on a registry that leaves it free, for a source
    that yields such a double. *)
Theorem every_code_can_be_drawn n :
  (1000 ≤ n ≤ 9999)%Z →
  (∃ r, draw r = n) ∧
  ∀ m : gmap string FileShare,
    Map_has m (toString n) = false →
    ∃ source, generateCode source 1 m 0 = Some (toString n, 1).
Proof.
  intros Hn.
  assert (Hd : draw (Example.bucket (n - 1000)) = n).
  { rewrite draw_bucket by lia. lia. }
  split; [eexists; exact Hd|].
  intros m Hfree. exists (λ _, Example.bucket (n - 1000)).
  cbn [generateCode]. rewrite Hd, Hfree. reflexivity.
Qed.

Lemma Consistent_dom w :
  Consistent createObjectURL w → dom (fileShares (app w)) ⊆ keyspace.
Proof.
  intros [He _ _ _] k Hk. apply elem_of_dom in Hk as [share Hk].
  apply elem_of_keyspace. apply (He _ _ Hk).
Qed.

(** X5.  Capacity.  In a session that starts from the first render at most
    9000 uploads return and the registry never holds more than 9000
    entries; once it holds 9000, an upload returns after no number of
    iterations. *)
Theorem registry_capacity fuel es w cs :
  run random createObjectURL fuel init es = Some (w, cs) →
  length cs ≤ 9000 ∧
  size (fileShares (app w)) ≤ 9000 ∧
  (size (fileShares (app w)) = 9000 →
   ∀ fuel' f,
     handleFileUpload random createObjectURL fuel' (Some f) w = None).
Proof.
  intros H.
  pose proof (run_Consistent _ _ _ _ _ init_Consistent H) as HC.
  apply Consistent_dom in HC.
  assert (Hsz : size (fileShares (app w)) ≤ 9000).
  { rewrite <- size_dom, <- size_keyspace. apply subseteq_size. exact HC. }
  apply run_shares in H as (Hnd & _ & Hdom & _).
  split_and!; [|exact Hsz|].
  - cbn in Hdom. rewrite dom_empty_L, (left_id_L ∅ (∪)) in Hdom.
    rewrite <- (size_list_to_set (C:=gset string) cs Hnd), <- Hdom, size_dom.
    exact Hsz.
  - intros Hfull fuel' f. unfold handleFileUpload.
    destruct (generateCode random fuel' _ _) as [[c k]|] eqn:Hg; [|reflexivity].
    exfalso. apply generateCode_inv in Hg as (j & _ & _ & _ & -> & Hfree & _).
    apply not_elem_of_dom in Hfree. apply Hfree.
    assert (Heq : dom (fileShares (app w)) = keyspace).
    { apply set_subseteq_size_eq; [exact HC|].
      rewrite size_keyspace, size_dom, Hfull. reflexivity. }
    rewrite Heq. apply elem_of_keyspace.
    eexists. split; [apply draw_range | reflexivity].
Qed.

(** X6.  Entries.  In a session that starts from the first render every
    entry is stored under its own [code], which is the decimal form of a
    number from 1000 to 9999, and its [url] is the result of one of the calls
    of [URL.createObjectURL] made so far, on the entry's file; and the code
    shown, when there is one, is a key of the registry, so the lookups of the
    render find their entry. *)
Theorem entries_consistent fuel es w cs :
  run random createObjectURL fuel init es = Some (w, cs) →
  (∀ k share,
      Map_get (fileShares (app w)) k = Some share →
      code share = k ∧
      (∃ n, (1000 ≤ n ≤ 9999)%Z ∧ k = toString n) ∧
      ∃ j, j < objectURLs w ∧ url share = createObjectURL j (file share)) ∧
  (uploadedCode (app w) ≠ "" →
   is_Some (Map_get (fileShares (app w)) (uploadedCode (app w)))).
Proof.
  intros H.
  pose proof (run_Consistent _ _ _ _ _ init_Consistent H)
    as [He Hs _ _].
  split.
  - intros k share Hk. apply He. exact Hk.
  - intros Hne. destruct Hs as [Hs|Hs]; [contradiction | exact Hs].
Qed.

(** X7.  The clipboard.  In a session that starts from the first render
    what [copyCode] wrote to the clipboard is a share code that the registry
    still resolves; and while the "copied" mark is set a timeout that clears
    it is pending. *)
Theorem copied_code_resolves fuel es w cs :
  run random createObjectURL fuel init es = Some (w, cs) →
  (∀ c, clipboard w = Some c →
        is_code c ∧ is_Some (Map_get (fileShares (app w)) c)) ∧
  (copied (app w) = true → 0 < timers w).
Proof.
  intros H.
  pose proof (run_Consistent _ _ _ _ _ init_Consistent H)
    as [He _ Hc Ht].
  split; [|exact Ht].
  intros c Hcl. pose proof (Hc c Hcl) as [share Hsh]. split.
  - destruct (He _ _ Hsh) as (_ & (n & Hn & ->) & _).
    destruct (toString_code n Hn) as (Hl & Hd & _). split; assumption.
  - eexists. exact Hsh.
Qed.

(** What a step that assigns a code returns. *)
Lemma step_assigns fuel w e w1 :
  assigns w e = true →
  step random createObjectURL fuel w e = Some w1 →
  ∃ f c,
    (e = SelectFile (Some f) ∨ e = Drop (Some f)) ∧
    view (app w) = upload ∧ is_code c ∧
    view (app w1) = upload ∧ uploadedCode (app w1) = c ∧
    downloadCode (app w1) = downloadCode (app w) ∧
    clicked w1 = clicked w ∧
    fileShares (app w1) =
      <[c := {| code := c; file := f;
                url := createObjectURL (objectURLs w) f |}]>
        (fileShares (app w)).
Proof.
  unfold assigns, step. destruct (enabled w e) eqn:En; [|discriminate].
  cbn [andb]. intros Ha.
  assert (Hv : view (app w) = upload).
  { destruct e; try discriminate; unfold enabled in En;
      destruct (view (app w)); try reflexivity; discriminate. }
  destruct (handle random createObjectURL fuel e w) as [w'|] eqn:H; [|discriminate].
  cbn [fmap option_fmap option_map]. intros [= <-].
  destruct e as [| |[f|]| | |[f|]| | | |v|]; try discriminate;
    cbn [handle handleFileSelect handleDrop] in H;
    apply handleFileUpload_inv in H as (c & k & Hg & ->);
    apply generateCode_inv in Hg as (j & _ & _ & _ & -> & _);
    exists f, (toString (draw (random j))); cbn;
    split_and!; auto using is_code_draw.
Qed.

(** X8.  Share, then fetch.  After an upload of [f] by file selection or by
    drop, a click on the download tab, typing the code shown and a click on
    the download button start exactly one transfer, of the object URL made
    for [f] under the name of [f]; no error is shown, the code field is
    emptied, and the registry is as the upload left it. *)
Theorem share_then_fetch fuel w e w1 :
  assigns w e = true →
  step random createObjectURL fuel w e = Some w1 →
  ∃ f w4,
    (e = SelectFile (Some f) ∨ e = Drop (Some f)) ∧
    run random createObjectURL fuel w1
      [ClickDownloadTab; TypeCode (uploadedCode (app w1)); ClickDownload]
      = Some (w4, []) ∧
    clicked w4
      = clicked w ++ [(createObjectURL (objectURLs w) f, File.name f)] ∧
    error (app w4) = "" ∧ downloadCode (app w4) = "" ∧
    fileShares (app w4) = fileShares (app w1).
Proof.
  intros Ha Hs.
  destruct (step_assigns _ _ _ _ Ha Hs)
    as (f & c & He & _ & [Hl Hd] & Hv & Hc & _ & Hcl & Hm).
  exists f.
  assert (Hsan : slice 0 4 (replace_nondigits c) = c).
  { unfold slice. cbn [Nat.sub]. rewrite (replace_nondigits_id c Hd).
    apply substring_0_all. lia. }
  destruct w1 as [[v m uc dc er cp dr] rc ou ck cb tm lk]. cbn in *. subst.
  unfold run, step, assigns, enabled, handle, onChangeCode, handleDownload.
  cbn. rewrite Hsan, Hl. cbn. unfold Map_get. cbn.
  rewrite lookup_insert_eq. cbn.
  eexists. split_and!; try reflexivity. exact He.
Qed.

(** X9.  The upload panel.  After an upload the drop zone and the file
    input are gone, so that no second upload can follow directly, and the
    copy button and "Upload Another File" are there; a click on "Upload
    Another File" brings the drop zone and the file input back and leaves
    the registry as it is. *)
Theorem upload_panel_gating fuel w e w1 :
  assigns w e = true →
  step random createObjectURL fuel w e = Some w1 →
  (∀ g, enabled w1 (SelectFile g) = false ∧ enabled w1 (Drop g) = false) ∧
  enabled w1 ClickCopy = true ∧
  enabled w1 ClickUploadAnother = true ∧
  (∀ w2,
      step random createObjectURL fuel w1 ClickUploadAnother = Some w2 →
      (∀ g, enabled w2 (SelectFile g) = true ∧ enabled w2 (Drop g) = true) ∧
      fileShares (app w2) = fileShares (app w1)).
Proof.
  intros Ha Hs.
  destruct (step_assigns _ _ _ _ Ha Hs)
    as (f & c & _ & _ & [Hl _] & Hv & Hc & _).
  assert (Hne : uploadedCode (app w1) ≠ "").
  { rewrite Hc. intros ->. discriminate. }
  assert (En : enabled w1 ClickUploadAnother = true).
  { unfold enabled. rewrite Hv, bool_decide_eq_false_2 by exact Hne. reflexivity. }
  split_and!.
  - intros g. unfold enabled. rewrite Hv, bool_decide_eq_false_2 by exact Hne.
    split; reflexivity.
  - exact En.
  - exact En.
  - intros w2. unfold step. rewrite En. cbn. intros [= <-]. cbn.
    split; [|reflexivity]. intros g. unfold enabled. cbn. rewrite Hv.
    split; reflexivity.
Qed.

(** X10.  The download button after a click.  A click that finds the code
    starts the transfer of the entry's URL under its file's name, empties
    the code field and thereby disables the button; a click that misses
    keeps the code, shows the error and leaves the button enabled, and a
    further click changes nothing in the state or the transfers. *)
Theorem download_button_after_click fuel w w' :
  enabled w ClickDownload = true →
  step random createObjectURL fuel w ClickDownload = Some w' →
  match Map_get (fileShares (app w)) (downloadCode (app w)) with
  | Some share =>
      downloadCode (app w') = "" ∧ error (app w') = "" ∧
      clicked w' = clicked w ++ [(url share, File.name (file share))] ∧
      enabled w' ClickDownload = false
  | None =>
      downloadCode (app w') = downloadCode (app w) ∧
      error (app w') = invalid_code ∧
      clicked w' = clicked w ∧
      enabled w' ClickDownload = true ∧
      ∀ w'',
        step random createObjectURL fuel w' ClickDownload = Some w'' →
        app w'' = app w' ∧ clicked w'' = clicked w'
  end.
Proof.
  intros En. unfold step. rewrite En. cbn. intros [= <-].
  assert (Hv : view (app w) = download ∧ String.length (downloadCode (app w)) = 4).
  { unfold enabled in En. destruct (view (app w)); [discriminate|].
    apply negb_true_iff, bool_decide_eq_false in En. split; [reflexivity|].
    destruct (decide (String.length (downloadCode (app w)) = 4)); [assumption|contradiction]. }
  destruct Hv as [Hv Hl].
  unfold handleDownload, Map_get.
  destruct (fileShares (app w) !! downloadCode (app w)) as [share|] eqn:E; cbn.
  - split_and!; try reflexivity. unfold enabled. cbn. rewrite Hv. reflexivity.
  - split_and!; try reflexivity.
    + unfold enabled. cbn. rewrite Hv, Hl. reflexivity.
    + intros w''. unfold enabled, render. cbn. rewrite Hv, Hl. cbn.
      intros [= <-]. unfold handleDownload, Map_get. cbn. rewrite E. cbn.
      split; reflexivity.
Qed.

(** X11.  The tabs.  Both tabs can be clicked in every state and neither
    touches the registry.  The upload tab clears the error and the code
    shown, so that the drop zone is there and "Upload Another File" is not;
    the download tab clears the error and the code field, so that the field
    can be typed in and the download button is disabled. *)
Theorem tab_clicks_reset fuel w :
  ∃ wu wd,
    step random createObjectURL fuel w ClickUploadTab = Some wu ∧
    step random createObjectURL fuel w ClickDownloadTab = Some wd ∧
    (view (app wu) = upload ∧ uploadedCode (app wu) = "" ∧ error (app wu) = "" ∧
     downloadCode (app wu) = downloadCode (app w) ∧
     fileShares (app wu) = fileShares (app w) ∧
     (∀ g, enabled wu (SelectFile g) = true) ∧
     enabled wu ClickUploadAnother = false ∧
     enabled wu ClickDownload = false) ∧
    (view (app wd) = download ∧ downloadCode (app wd) = "" ∧ error (app wd) = "" ∧
     uploadedCode (app wd) = uploadedCode (app w) ∧
     fileShares (app wd) = fileShares (app w) ∧
     (∀ v, enabled wd (TypeCode v) = true) ∧
     enabled wd ClickDownload = false ∧
     (∀ g, enabled wd (SelectFile g) = false)).
Proof.
  eexists _, _. split; [reflexivity|]. split; [reflexivity|].
  split; cbn; split_and!; reflexivity.
Qed.

Lemma generateCode_None fuel (m : gmap string FileShare) k :
  generateCode random fuel m k = None →
  ∀ i, k ≤ i < k + fuel → Map_has m (toString (draw (random i))) = true.
Proof.
  revert k. induction fuel as [|fuel IH]; intros k H i Hi; [lia|].
  cbn [generateCode] in H.
  destruct (Map_has m (toString (draw (random k)))) eqn:E; [|discriminate].
  destruct (decide (i = k)) as [->|Hne]; [exact E|].
  apply (IH (S k) H). lia.
Qed.

(** X12.  Only an upload can hang.  An event is not handled within the
    bound on iterations only if it is an upload of a file, and then every
    draw that [generateCode] made, one per iteration, was a taken code. *)
Theorem only_uploads_can_hang fuel w e :
  step random createObjectURL fuel w e = None →
  assigns w e = true ∧
  ∀ i, randomCalls w ≤ i < randomCalls w + fuel →
       Map_has (fileShares (app w)) (toString (draw (random i))) = true.
Proof.
  unfold step, assigns. destruct (enabled w e); [|discriminate].
  destruct (handle random createObjectURL fuel e w) as [w1|] eqn:H; [discriminate|].
  intros _. cbn [andb].
  destruct e as [| |[f|]| | |[f|]| | | |v|];
    cbn [handle handleFileSelect handleDrop] in H; try discriminate;
    unfold handleFileUpload in H;
    destruct (generateCode random fuel _ _) as [[c k]|] eqn:Hg; try discriminate;
    (split; [reflexivity|]); intros i Hi;
    apply (generateCode_None _ _ _ Hg); exact Hi.
Qed.

End Further.


Lemma generateCode_first_free_witness :
  generateCode Example.twice 5 {[ "1000" := Example.share_1000 ]} 0
    = Some ("1001", 3) ∧
  generateCode Example.twice 9 {[ "1000" := Example.share_1000 ]} 0
    = Some ("1001", 3).
Proof.
  assert (E : generateCode Example.twice 5 {[ "1000" := Example.share_1000 ]} 0
              = Some ("1001", 3)) by (vm_compute; reflexivity).
  split; [exact E|].
  apply (generateCode_first_free Example.twice 5 _ _ _ _ E). lia.
Defined.

Lemma session_accounting_witness :
  ∃ w',
    run Example.twice Example.blob_url 5 init Example.session
      = Some (w', ["1000"; "1001"]) ∧
    size (fileShares (app w')) = 2 ∧ objectURLs w' = 2.
Proof.
  eexists.
  assert (E : run Example.twice Example.blob_url 5 init Example.session
              = Some (?[w'], ["1000"; "1001"])) by (vm_compute; reflexivity).
  destruct (session_accounting Example.twice Example.blob_url 5 _ _ _ _ E)
    as (Hs & Hu & _).
  split_and!; [exact E | exact Hs | exact Hu].
Defined.

Lemma every_code_can_be_drawn_witness : ∃ r, draw r = 4711%Z.
Proof. apply (every_code_can_be_drawn 4711). lia. Defined.

Lemma registry_capacity_witness :
  ∃ w',
    run Example.twice Example.blob_url 5 init Example.session
      = Some (w', ["1000"; "1001"]) ∧
    size (fileShares (app w')) ≤ 9000.
Proof.
  eexists.
  assert (E : run Example.twice Example.blob_url 5 init Example.session
              = Some (?[w'], ["1000"; "1001"])) by (vm_compute; reflexivity).
  destruct (registry_capacity Example.twice Example.blob_url 5 _ _ _ E)
    as (_ & Hs & _).
  split; [exact E | exact Hs].
Defined.

Lemma entries_consistent_witness :
  ∃ w',
    run Example.twice Example.blob_url 5 init Example.session
      = Some (w', ["1000"; "1001"]) ∧
    is_Some (Map_get (fileShares (app w')) "1001").
Proof.
  eexists.
  assert (E : run Example.twice Example.blob_url 5 init Example.session
              = Some (?[w'], ["1000"; "1001"])) by (vm_compute; reflexivity).
  split; [exact E|].
  apply (proj2 (entries_consistent Example.twice Example.blob_url 5 _ _ _ E)).
  discriminate.
Defined.

Lemma copied_code_resolves_witness :
  ∃ w',
    run Example.twice Example.blob_url 5 init Example.session
      = Some (w', ["1000"; "1001"]) ∧
    clipboard w' = Some "1000" ∧
    is_Some (Map_get (fileShares (app w')) "1000").
Proof.
  eexists.
  assert (E : run Example.twice Example.blob_url 5 init Example.session
              = Some (?[w'], ["1000"; "1001"])) by (vm_compute; reflexivity).
  split; [exact E|]. split; [reflexivity|].
  apply (proj1 (copied_code_resolves Example.twice Example.blob_url 5 _ _ _ E)).
  reflexivity.
Defined.

Lemma share_then_fetch_witness :
  ∃ w1 f w4,
    step Example.twice Example.blob_url 5 init (SelectFile (Some Example.notes))
      = Some w1 ∧
    run Example.twice Example.blob_url 5 w1
      [ClickDownloadTab; TypeCode (uploadedCode (app w1)); ClickDownload]
      = Some (w4, []) ∧
    clicked w4 = [(Example.blob_url 0 f, File.name f)].
Proof.
  eexists.
  assert (E : step Example.twice Example.blob_url 5 init
                (SelectFile (Some Example.notes)) = Some ?[w1])
    by (vm_compute; reflexivity).
  destruct (share_then_fetch Example.twice Example.blob_url 5 init
              (SelectFile (Some Example.notes)) _ eq_refl E) as (f & w4 & _ & Hr & Hc & _).
  exists f, w4. split_and!; [exact E | exact Hr | exact Hc].
Defined.

Lemma upload_panel_gating_witness :
  ∃ w1,
    step Example.twice Example.blob_url 5 init (SelectFile (Some Example.notes))
      = Some w1 ∧
    enabled w1 (SelectFile (Some Example.photo)) = false ∧
    enabled w1 ClickUploadAnother = true.
Proof.
  eexists.
  assert (E : step Example.twice Example.blob_url 5 init
                (SelectFile (Some Example.notes)) = Some ?[w1])
    by (vm_compute; reflexivity).
  destruct (upload_panel_gating Example.twice Example.blob_url 5 init
              (SelectFile (Some Example.notes)) _ eq_refl E) as (Hg & _ & Ha & _).
  split_and!; [exact E | apply Hg | exact Ha].
Defined.

Lemma download_button_after_click_witness :
  ∃ w',
    step Example.twice Example.blob_url 5
      (with_app (setView download) (onChangeCode "4711" init)) ClickDownload
      = Some w' ∧
    error (app w') = invalid_code ∧ enabled w' ClickDownload = true.
Proof.
  eexists.
  assert (E : step Example.twice Example.blob_url 5
                (with_app (setView download) (onChangeCode "4711" init))
                ClickDownload = Some ?[w'])
    by (vm_compute; reflexivity).
  pose proof (download_button_after_click Example.twice Example.blob_url 5
                (with_app (setView download) (onChangeCode "4711" init)) _
                eq_refl E) as H.
  cbn in H. destruct H as (_ & He & _ & Hen & _).
  split_and!; [exact E | exact He | exact Hen].
Defined.

Lemma only_uploads_can_hang_witness :
  step Example.stuck Example.blob_url 7
    {| app := setFileShares {[ "1000" := Example.share_1000 ]} (app init);
       randomCalls := 0; objectURLs := 1; clicked := []; clipboard := None;
       timers := 0; lookups := [] |}
    (SelectFile (Some Example.photo)) = None ∧
  Map_has {[ "1000" := Example.share_1000 ]}
    (toString (draw (Example.stuck 6))) = true.
Proof.
  assert (E : step Example.stuck Example.blob_url 7
    {| app := setFileShares {[ "1000" := Example.share_1000 ]} (app init);
       randomCalls := 0; objectURLs := 1; clicked := []; clipboard := None;
       timers := 0; lookups := [] |}
    (SelectFile (Some Example.photo)) = None) by (vm_compute; reflexivity).
  split; [exact E|].
  apply (proj2 (only_uploads_can_hang Example.stuck Example.blob_url 7 _ _ E) 6).
  cbn. lia.
Defined.
